(** * Travel planner: the response tabulator and the submit handler of [app.py]

    A shallow embedding of the Streamlit script [src/app.py].

    - Python [str] values are sequences of Unicode code points, here
      [list N].  Code points matter twice: [str.strip] removes Unicode
      white space and the pattern [\d] of [re] matches every Unicode
      decimal digit, not only the ASCII ones.
    - List slicing, [str.split], [str.strip] and the regular-expression
      replacement are written out as functions.
    - pandas, plotly and Streamlit are libraries: the few operations the
      script calls are modelled from their documented behaviour (ragged
      rows are padded, a column count that differs from the row width is a
      [ValueError], [errors='coerce'] turns a failed parse into NaN).
    - The script's effects (what it writes to the page, the call of the
      language-model chain) are a trace of events threaded through a small
      exception monad, so that [try]/[except] reads as in the source. *)

From Stdlib Require Import List NArith ZArith QArith Qreduction Bool Lia.
From Stdlib Require Import Strings.String Strings.Ascii Numbers.DecimalString.
Import ListNotations.

Set Implicit Arguments.
Close Scope Q_scope.

(* ================================================================= *)
(** ** Strings as code points *)

Definition char : Type := N.
Definition str : Type := list char.

(** An ASCII literal of the source as a [str]. *)
Definition lit (s : string) : str := map N_of_ascii (list_ascii_of_string s).

Definition NL : char := 10%N.     (* '\n' *)
Definition BAR : char := 124%N.   (* '|' *)
Definition DOT : char := 46%N.    (* '.' *)
Definition COMMA : char := 44%N.  (* ',' *)
Definition DQUOTE : char := 34%N. (* the double quote *)

Fixpoint str_eqb (a b : str) : bool :=
  match a, b with
  | [], [] => true
  | x :: a', y :: b' => (x =? y)%N && str_eqb a' b'
  | _, _ => false
  end.

(** [str.isspace] on one code point ([Py_UNICODE_ISSPACE]): the set that
    [str.strip()] without argument removes. *)
Definition is_space (c : char) : bool :=
  ((9 <=? c) && (c <=? 13) || (28 <=? c) && (c <=? 32)
   || (c =? 133) || (c =? 160) || (c =? 5760)
   || (8192 <=? c) && (c <=? 8202)
   || (c =? 8232) || (c =? 8233) || (c =? 8239) || (c =? 8287)
   || (c =? 12288))%N.

(** The code points of the digit zero of every decimal-digit script
    (general category Nd, Unicode 14); each is followed by its digits one to
    nine. *)
Definition decimal_zeros : list N :=
  [48; 1632; 1776; 1984; 2406; 2534; 2662; 2790; 2918; 3046; 3174; 3302;
   3430; 3558; 3664; 3792; 3872; 4160; 4240; 6112; 6160; 6470; 6608; 6784;
   6800; 6992; 7088; 7232; 7248; 42528; 43216; 43264; 43472; 43504; 43600;
   44016; 65296; 66720; 68912; 69734; 69872; 69942; 70096; 70384; 70736;
   70864; 71248; 71360; 71472; 71904; 72016; 72784; 73040; 73120; 92768;
   92864; 93008; 120782; 120792; 120802; 120812; 120822; 123200; 123632;
   125264; 130032]%N.

(** [\d] of a [str] pattern: [Py_UNICODE_ISDECIMAL]. *)
Definition is_decimal (c : char) : bool :=
  existsb (fun z => (z <=? c) && (c <? z + 10))%N decimal_zeros.

(** The ASCII digits, the only ones the numeric parser of pandas reads. *)
Definition is_ascii_digit (c : char) : bool := ((48 <=? c) && (c <=? 57))%N.

(* ----------------------------------------------------------------- *)
(** *** [str.strip], [str.split], [str.join] *)

Fixpoint lstrip (s : str) : str :=
  match s with
  | [] => []
  | c :: s' => if is_space c then lstrip s' else s
  end.

Definition rstrip (s : str) : str := rev (lstrip (rev s)).

(** [s.strip()] *)
Definition strip (s : str) : str := rstrip (lstrip s).

(** [s.split(sep)] for a one-character separator: one piece more than there
    are separators, empty pieces kept. *)
Fixpoint split (sep : char) (s : str) : list str :=
  match s with
  | [] => [[]]
  | c :: s' =>
      if (c =? sep)%N then [] :: split sep s'
      else match split sep s' with
           | [] => [[c]]
           | w :: ws => (c :: w) :: ws
           end
  end.

(** [sep.join(pieces)] *)
Fixpoint join (sep : str) (pieces : list str) : str :=
  match pieces with
  | [] => []
  | [p] => p
  | p :: ps => p ++ sep ++ join sep ps
  end.

(* ----------------------------------------------------------------- *)
(** *** List slicing [l[i:j]] *)

(** [PySlice_AdjustIndices] for step 1: a negative index counts from the
    end, and both ends are clamped to the list. *)
Definition adjust_index (len i : Z) : Z :=
  if (i <? 0)%Z then Z.max 0 (i + len) else Z.min i len.

Definition py_slice {A : Type} (i j : Z) (l : list A) : list A :=
  let len := Z.of_nat (List.length l) in
  let lo := adjust_index len i in
  let hi := adjust_index len j in
  firstn (Z.to_nat (hi - lo)) (skipn (Z.to_nat lo) l).

(* ----------------------------------------------------------------- *)
(** *** [re.sub] for a character class repeated with [+] *)

(** [re.sub('[cls]+', repl, s)]: every maximal run of characters of the
    class is one match and is replaced by [repl].  [in_match] tells that
    the previous character belonged to the current match. *)
Fixpoint re_sub_runs (cls : char -> bool) (repl : str) (in_match : bool)
  (s : str) : str :=
  match s with
  | [] => []
  | c :: s' =>
      if cls c then (if in_match then [] else repl) ++ re_sub_runs cls repl true s'
      else c :: re_sub_runs cls repl false s'
  end.

(** The class [[^\d\.]]. *)
Definition not_digit_or_dot (c : char) : bool :=
  negb (is_decimal c || (c =? DOT)%N).

(** [re.sub(r'[^\d\.]+', '', s)] *)
Definition strip_non_numeric (s : str) : str :=
  re_sub_runs not_digit_or_dot [] false s.

(* ----------------------------------------------------------------- *)
(** *** The numeric parse of one string *)

(** The leading run of ASCII digits, as digit values, and the rest. *)
Fixpoint span_digits (s : str) : list N * str :=
  match s with
  | [] => ([], [])
  | c :: s' =>
      if is_ascii_digit c then
        let '(ds, r) := span_digits s' in ((c - 48)%N :: ds, r)
      else ([], s)
  end.

Definition digits_value (ds : list N) : N :=
  fold_left (fun acc d => (acc * 10 + d)%N) ds 0%N.

(** What the parser of [pd.to_numeric] accepts on text made of digits and
    dots: digits, then optionally a dot and digits, at least one digit in
    all, and nothing left over.  The value is the exact decimal; its
    rounding to a 64-bit float (and the overflow of literals beyond the
    float range) is outside the model. *)
Definition parse_decimal (s : str) : option Q :=
  let '(ip, r1) := span_digits s in
  let '(fp, r2) :=
    match r1 with
    | c :: r => if (c =? DOT)%N then span_digits r else ([], r1)
    | [] => ([], [])
    end in
  match r2 with
  | [] =>
      if (List.length ip + List.length fp =? 0)%nat then None
      else Some (Qred (Qmake (Z.of_N (digits_value (ip ++ fp)))
                             (Z.to_pos (10 ^ Z.of_nat (List.length fp)))))
  | _ :: _ => None
  end.

(* ================================================================= *)
(** ** Exceptions, and the effects of the script *)

(** The exceptions the script can meet; [Exception] stands for any other
    subclass of [Exception], with the text [str(e)] gives. *)
Inductive exn : Type :=
| ValueError (msg : str)
| KeyError (key : str)
| Exception (cause : str).

(** [str(e)], what an f-string interpolates. *)
Definition exn_str (e : exn) : str :=
  match e with
  | ValueError msg => msg
  | KeyError key => lit "'" ++ key ++ lit "'"
  | Exception cause => cause
  end.

Inductive outcome (A : Type) : Type :=
| Done (a : A)
| Raised (e : exn).
Arguments Done {A} a.
Arguments Raised {A} e.

(** One cell of a data frame: a string, Python's [None], a number, or NaN. *)
Inductive value : Type :=
| VStr (s : str)
| VNone
| VNum (q : Q)
| VNaN.

(** [go.Bar(x=..., y=...)] and [go.Figure([bar])] after [update_layout]. *)
Record Bar : Type := mkBar { bar_x : list value; bar_y : list value }.

Record Figure : Type := mkFigure {
  fig_data : list Bar;
  fig_title : str;
  fig_xaxis_title : str;
  fig_yaxis_title : str
}.

(** What the script does to the outside, in order. *)
Inductive event : Type :=
| EvWrite (text : str)                          (* st.write *)
| EvError (msg : str)                           (* st.error *)
| EvChainRun (source destination : str)         (* travel_chain.run: the network call *)
| EvPlotlyChart (fig : Figure)                  (* st.plotly_chart *)
| EvDownloadButton (label data file_name mime : str). (* st.download_button *)

Definition trace : Type := list event.

(** A computation of the script: it extends the trace and returns or
    raises.  What was emitted before a raise stays emitted. *)
Definition ui (A : Type) : Type := trace -> trace * outcome A.

Definition ret {A : Type} (a : A) : ui A := fun t => (t, Done a).

Definition bind {A B : Type} (m : ui A) (k : A -> ui B) : ui B :=
  fun t =>
    match m t with
    | (t', Done a) => k a t'
    | (t', Raised e) => (t', Raised e)
    end.

Definition emit (ev : event) : ui unit := fun t => (t ++ [ev], Done tt).

(** A pure step that may raise. *)
Definition lift {A : Type} (o : outcome A) : ui A := fun t => (t, o).

(** [try: body  except Exception as e: handler e] *)
Definition try_except {A : Type} (body : ui A) (handler : exn -> ui A) : ui A :=
  fun t =>
    match body t with
    | (t', Done a) => (t', Done a)
    | (t', Raised e) => handler e t'
    end.

Declare Scope ui_scope.
Delimit Scope ui_scope with ui.
Notation "x <- m ;; k" := (bind m (fun x => k))
  (at level 61, m at next level, right associativity) : ui_scope.
Notation "m ;; k" := (bind m (fun _ => k))
  (at level 61, right associativity) : ui_scope.

(** The events a computation emits, started on the empty page. *)
Definition run {A : Type} (m : ui A) : trace := fst (m []).

(* ================================================================= *)
(** ** The data frame *)

Record DataFrame : Type := mkDataFrame {
  df_columns : list str;
  df_rows : list (list value)
}.

Definition nat_str (n : nat) : str :=
  lit (NilEmpty.string_of_uint (Nat.to_uint n)).

(** A row shorter than the widest one is filled with [None]. *)
Definition pad_row (width : nat) (row : list str) : list value :=
  map VStr row ++ repeat VNone (width - List.length row).

(** [pd.DataFrame(rows, columns=columns)] for a list of lists of strings.
    No row: an empty frame with the columns.  Otherwise the frame is as
    wide as the longest row, and that width must be the number of columns. *)
Definition pd_DataFrame (rows : list (list str)) (columns : list str)
  : outcome DataFrame :=
  match rows with
  | [] => Done (mkDataFrame columns [])
  | _ :: _ =>
      let width := list_max (map (@List.length str) rows) in
      if (width =? List.length columns)%nat then
        Done (mkDataFrame columns (map (pad_row width) rows))
      else
        Raised (ValueError (nat_str (List.length columns)
                            ++ lit " columns passed, passed data had "
                            ++ nat_str width ++ lit " columns"))
  end.

Fixpoint index_of (name : str) (columns : list str) : option nat :=
  match columns with
  | [] => None
  | c :: cs =>
      if str_eqb c name then Some O
      else match index_of name cs with
           | Some i => Some (S i)
           | None => None
           end
  end.

(** [df[name]], a column read. *)
Definition getitem (df : DataFrame) (name : str) : outcome (list value) :=
  match index_of name (df_columns df) with
  | Some i => Done (map (fun row => nth i row VNone) (df_rows df))
  | None => Raised (KeyError name)
  end.

Fixpoint set_nth {A : Type} (i : nat) (x : A) (l : list A) : list A :=
  match l, i with
  | [], _ => []
  | _ :: l', O => x :: l'
  | y :: l', S i' => y :: set_nth i' x l'
  end.

(** [df[name] = series], for a series aligned with the frame: an existing
    column is replaced in place, a new name is appended. *)
Definition setitem (df : DataFrame) (name : str) (series : list value)
  : DataFrame :=
  match index_of name (df_columns df) with
  | Some i =>
      mkDataFrame (df_columns df)
        (map (fun rv => set_nth i (snd rv) (fst rv))
             (combine (df_rows df) series))
  | None =>
      mkDataFrame (df_columns df ++ [name])
        (map (fun rv => fst rv ++ [snd rv]) (combine (df_rows df) series))
  end.

(** [series.str.replace(r'[^\d\.]+', '', regex=True)]: a string is
    rewritten, anything else becomes NaN. *)
Definition str_replace_non_numeric (series : list value) : list value :=
  map (fun v => match v with
                | VStr s => VStr (strip_non_numeric s)
                | _ => VNaN
                end) series.

(** One cell of [pd.to_numeric(series, errors='coerce')]. *)
Definition to_numeric_cell (v : value) : value :=
  match v with
  | VStr s => match parse_decimal s with
              | Some q => VNum q
              | None => VNaN
              end
  | VNum q => VNum q
  | VNone | VNaN => VNaN
  end.

Definition to_numeric_coerce (series : list value) : list value :=
  map to_numeric_cell series.

(** The two steps on one Price or Time cell. *)
Definition coerce_cell (v : value) : value :=
  match to_numeric_coerce (str_replace_non_numeric [v]) with
  | [r] => r
  | _ => VNaN
  end.

(* ----------------------------------------------------------------- *)
(** *** [df.to_csv(buffer, index=False)] *)

(** [csv.QUOTE_MINIMAL] with the line terminator of a POSIX host: a field
    is quoted when it holds the delimiter, the quote character or a
    character of the line terminator; a quote inside is doubled. *)
Definition csv_special (c : char) : bool :=
  ((c =? COMMA) || (c =? DQUOTE) || (c =? NL))%N.

Definition csv_field (s : str) : str :=
  if existsb csv_special s then
    DQUOTE :: flat_map (fun c => if (c =? DQUOTE)%N then [DQUOTE; DQUOTE] else [c]) s
    ++ [DQUOTE]
  else s.

(** One written row; a row that is a single empty field is written as a
    pair of quotes. *)
Definition csv_line (fields : list str) : str :=
  match fields with
  | [[]] => [DQUOTE; DQUOTE; NL]
  | _ => join [COMMA] (map csv_field fields) ++ [NL]
  end.

Section App.

(** How pandas prints a number of a numeric column: it depends on the
    column's dtype (integer or float) and on float formatting, neither of
    which is modelled. *)
Variable num_repr : list value -> Q -> str.

(** The language-model chain: what [travel_chain.run] answers to a query.
    The reply is a string, or some other object whose ["text"] item is a
    string or whose indexing raises. *)
Inductive response : Type :=
| RespStr (text : str)
| RespOther (text_item : outcome str).

Variable travel_chain : str -> str -> outcome response.

Definition column_at (j : nat) (df : DataFrame) : list value :=
  map (fun row => nth j row VNone) (df_rows df).

Definition csv_cell (df : DataFrame) (j : nat) (v : value) : str :=
  match v with
  | VStr s => s
  | VNum q => num_repr (column_at j df) q
  | VNone | VNaN => []
  end.

Definition csv_row (df : DataFrame) (row : list value) : str :=
  csv_line (map (fun jv => csv_cell df (fst jv) (snd jv))
                (combine (seq 0 (List.length row)) row)).

Definition to_csv (df : DataFrame) : str :=
  csv_line (df_columns df) ++ flat_map (csv_row df) (df_rows df).

(* ================================================================= *)
(** ** The script *)

Definition TRAVEL_TYPE : str := lit "Travel Type".
Definition PRICE : str := lit "Price (Estimated)".
Definition TIME : str := lit "Time (Estimated)".
Definition DESCRIPTION : str := lit "Description".
Definition COMFORT : str := lit "Comfort Level".
Definition DIRECTNESS : str := lit "Directness".

Definition COLUMNS : list str :=
  [TRAVEL_TYPE; PRICE; TIME; DESCRIPTION; COMFORT; DIRECTNESS].

(** [get_travel_recommendations(source, destination)] *)
Definition get_travel_recommendations (source destination : str) : ui str :=
  try_except
    (emit (EvChainRun source destination) ;;
     response <- lift (travel_chain source destination) ;;
     match response with
     | RespStr text => ret text
     | RespOther text_item => lift text_item
     end)%ui
    (fun e => ret (lit "An error occurred: " ++ exn_str e)).

(** Lines 69-70: the lines kept, and their fields. *)
Definition table_data (recommendations : str) : list str :=
  py_slice 2 (-1) (split NL (strip recommendations)).

Definition row_fields (row : str) : list str :=
  py_slice 1 (-1) (split BAR (strip row)).

Definition rows (recommendations : str) : list (list str) :=
  map row_fields (table_data recommendations).

(** [df[name] = pd.to_numeric(df[name].str.replace(...), errors='coerce')] *)
Definition coerce_column (df : DataFrame) (name : str) : outcome DataFrame :=
  match getitem df name with
  | Done series =>
      Done (setitem df name (to_numeric_coerce (str_replace_non_numeric series)))
  | Raised e => Raised e
  end.

(** Lines 69-75: from the reply to the frame with its two numeric columns. *)
Definition tabulate (recommendations : str) : outcome DataFrame :=
  match pd_DataFrame (rows recommendations) COLUMNS with
  | Done df =>
      match coerce_column df PRICE with
      | Done df1 => coerce_column df1 TIME
      | Raised e => Raised e
      end
  | Raised e => Raised e
  end.

Definition bar_chart (df : DataFrame) (y_column title y_title : str)
  : outcome Figure :=
  match getitem df TRAVEL_TYPE, getitem df y_column with
  | Done x, Done y => Done (mkFigure [mkBar x y] title TRAVEL_TYPE y_title)
  | Raised e, _ => Raised e
  | _, Raised e => Raised e
  end.

Definition PRICE_TITLE : str := 128176%N :: lit " Price Comparison".
Definition PRICE_AXIS : str := lit "Price (" ++ [8377%N] ++ lit ")".
Definition TIME_TITLE : str := 9203%N :: lit " Time Comparison".
Definition TIME_AXIS : str := lit "Time (Hours)".
Definition DOWNLOAD_LABEL : str := 128229%N :: lit " Download Travel Data as CSV".
Definition PROCESSING_ERROR : str :=
  [9888%N; 65039%N] ++ lit " Error processing data or creating charts: ".
Definition VALIDATION_ERROR : str :=
  10060%N :: lit " Please enter both source and destination cities.".

(** Lines 68-93: the body of the [try] and its handler. *)
Definition tabulation_body (recommendations : str) : ui unit :=
  (df <- lift (tabulate recommendations) ;;
   fig_price <- lift (bar_chart df PRICE PRICE_TITLE PRICE_AXIS) ;;
   emit (EvPlotlyChart fig_price) ;;
   fig_time <- lift (bar_chart df TIME TIME_TITLE TIME_AXIS) ;;
   emit (EvPlotlyChart fig_time) ;;
   emit (EvDownloadButton DOWNLOAD_LABEL (to_csv df)
           (lit "travel_data.csv") (lit "text/csv")))%ui.

Definition tabulation (recommendations : str) : ui unit :=
  try_except (tabulation_body recommendations)
    (fun e => emit (EvError (PROCESSING_ERROR ++ exn_str e))).

(** Truth value of a string: it is not empty. *)
Definition truthy (s : str) : bool :=
  match s with [] => false | _ :: _ => true end.

(** Lines 60-96: the button was pressed with these two fields. *)
Definition on_submit (source destination : str) : ui unit :=
  if truthy source && truthy destination then
    (emit (EvWrite (lit "Generating travel options from **" ++ source
                    ++ lit "** to **" ++ destination ++ lit "**...")) ;;
     recommendations <- get_travel_recommendations source destination ;;
     emit (EvWrite (lit "### Travel Recommendations:")) ;;
     emit (EvWrite recommendations) ;;
     tabulation recommendations)%ui
  else
    emit (EvError VALIDATION_ERROR).

End App.

(* ================================================================= *)
(** ** Vocabulary of the specification *)

(** A markdown table row: a bar, then every cell followed by a bar. *)
Definition table_row (cells : list str) : str :=
  BAR :: flat_map (fun c => c ++ [BAR]) cells.

(** A cell of a well-formed row holds no bar and no line break. *)
Definition cell_ok (c : str) : Prop := ~ In BAR c /\ ~ In NL c.

(** The record of a six-cell row: the Price and Time cells coerced, the
    four others as they are. *)
Definition record_of (cells : list str) : list value :=
  match cells with
  | [travel; price; time; descr; comfort; direct] =>
      [VStr travel; coerce_cell (VStr price); coerce_cell (VStr time);
       VStr descr; VStr comfort; VStr direct]
  | _ => []
  end.

(** The line selection as the specification words it: the lines of the
    response itself, without its first two and its last. *)
Definition table_data_spec (recommendations : str) : list str :=
  removelast (skipn 2 (split NL recommendations)).

(** The row splitting as the specification words it: the segments between
    the first and the last. *)
Definition row_fields_spec (row : str) : list str :=
  removelast (skipn 1 (split BAR row)).

(** The two steps of the frame on one row of cells. *)
Definition coerce_row (row : list value) : list value :=
  let row1 := set_nth 1 (coerce_cell (nth 1 row VNone)) row in
  set_nth 2 (coerce_cell (nth 2 row1 VNone)) row1.

(** The two figures and the download of a tabulated frame. *)
Definition price_chart (df : DataFrame) : Figure :=
  mkFigure [mkBar (column_at 0 df) (column_at 1 df)]
           PRICE_TITLE TRAVEL_TYPE PRICE_AXIS.

Definition time_chart (df : DataFrame) : Figure :=
  mkFigure [mkBar (column_at 0 df) (column_at 2 df)]
           TIME_TITLE TRAVEL_TYPE TIME_AXIS.

Definition CSV_HEADER : str :=
  lit "Travel Type,Price (Estimated),Time (Estimated),Description,Comfort Level,Directness".

(** A stand-in for the number printing of pandas, to run the script on
    examples: numerator, a slash, denominator. *)
Definition fraction_repr (column : list value) (q : Q) : str :=
  nat_str (Z.to_nat (Qnum q)) ++ lit "/" ++ nat_str (Pos.to_nat (Qden q)).

(** What a successful tabulation puts on the page. *)
Definition success_events (num_repr : list value -> Q -> str) (df : DataFrame)
  : trace :=
  [EvPlotlyChart (price_chart df);
   EvPlotlyChart (time_chart df);
   EvDownloadButton DOWNLOAD_LABEL (to_csv num_repr df)
     (lit "travel_data.csv") (lit "text/csv")].

(** What the composer returns, by what the chain did. *)
Definition reply_text (o : outcome response) : str :=
  match o with
  | Done (RespStr text) => text
  | Done (RespOther (Done text)) => text
  | Done (RespOther (Raised e)) => lit "An error occurred: " ++ exn_str e
  | Raised e => lit "An error occurred: " ++ exn_str e
  end.

(** Chains to run the script on: one that fails with a one-line cause,
    one that fails quoting the prompt, one that answers. *)
Definition quota_chain (source destination : str) : outcome response :=
  Raised (Exception (lit "quota exceeded")).

(** A reply of the expected shape, to run the script on. *)
Definition sample_header : str :=
  lit "| Travel Type | Price (Estimated) | Time (Estimated) | Description | Comfort Level | Directness |".

Definition sample_separator : str := lit "|---|---|---|---|---|---|".

Definition sample_cells : list (list str) :=
  [[lit " Cab/Taxi "; 32%N :: 8377%N :: lit "1200 "; lit " 2.5 hrs ";
    lit " Door to door "; lit " 4 "; lit " Direct "];
   [lit " Train "; 32%N :: 8377%N :: lit "300 "; lit " 3 hrs ";
    lit " Intercity express "; lit " 3 "; lit " Direct "];
   [lit " Bus "; 32%N :: 8377%N :: lit "450 "; lit " 4.5 hrs ";
    lit " State transport "; lit " 2 "; lit " Direct "];
   [lit " Flight "; lit " N/A "; lit " N/A ";
    lit " No airport on this route "; lit " 5 "; lit " Indirect "];
   [lit " Ola/Uber "; 32%N :: 8377%N :: lit "1500 "; lit " 2.5 hrs ";
    lit " App cab "; lit " 4 "; lit " Direct "]].

(** The table and nothing else: header, separator, five rows. *)
Definition sample_table : str :=
  join [NL] (sample_header :: sample_separator :: map table_row sample_cells).

Definition sample_trailer : str := lit "Note: all prices are estimates.".

(** The table followed by one line of prose. *)
Definition sample_reply : str :=
  join [NL] (sample_header :: sample_separator
             :: map table_row sample_cells ++ [sample_trailer]).

(** The text of an exception that quotes part of the prompt. *)
Definition echo_cause : str :=
  join [NL] [lit "400 bad request, the prompt was:"; sample_header;
             table_row (nth 0 sample_cells []); lit "end of prompt"].

Definition echo_chain (source destination : str) : outcome response :=
  Raised (Exception echo_cause).

Definition sample_chain (source destination : str) : outcome response :=
  Done (RespStr sample_reply).

(* ================================================================= *)
(** ** The whole script, from the key to the sidebar *)

Definition MISSING_KEY_ERROR : str :=
  lit "GEMINI_API_KEY is missing! Add it in Streamlit Secrets.".

Definition TITLE : str :=
  [128640%N] ++ lit " AI-Powered Travel Planner".

Definition TAGLINE : str :=
  lit "Find the best travel options using AI!".

Definition SOURCE_LABEL : str :=
  [128205%N] ++ lit " Enter Source City:".

Definition DESTINATION_LABEL : str :=
  [128205%N] ++ lit " Enter Destination City:".

Definition BUTTON_LABEL : str :=
  [128269%N] ++ lit " Get Travel Options".

Definition ABOUT_HEADER : str :=
  [8505%N; 65039%N] ++ lit " About This App".

Definition ABOUT_TEXT : str :=
  join [NL]
    [[];
     lit "This application utilizes **LangChain + Google Gemini AI** to provide travel recommendations.";
     lit "Just enter your source and destination, and AI will generate a list of travel options! " ++ [128640%N];
     []].

Definition STACK_HEADER : str :=
  [128295%N] ++ lit " Tech Stack".

Definition STACK_TEXT : str :=
  join [NL]
    [[];
     lit "- **Python**";
     lit "- **Streamlit**";
     lit "- **LangChain**";
     lit "- **Google Gemini AI**";
     lit "- **pandas**";
     lit "- **plotly**";
     []].

Definition DEPLOY_HEADER : str :=
  [128736%N; 65039%N] ++ lit " Deployment Instructions".

Definition DEPLOY_TEXT : str :=
  join [NL]
    [[];
     lit "1" ++ [65039%N; 8419%N] ++ lit " Create a **GitHub repository** and upload `app.py` and `requirements.txt`.  ";
     lit "2" ++ [65039%N; 8419%N] ++ lit " Go to **Streamlit Cloud** " ++ [8594%N] ++ lit " **New App**.  ";
     lit "3" ++ [65039%N; 8419%N] ++ lit " Select your GitHub repository.  ";
     lit "4" ++ [65039%N; 8419%N] ++ lit " **Set API Key in Streamlit Secrets**:";
     lit "   - Open **Settings > Secrets**.";
     lit "   - Add:";
     lit "     ```";
     lit "     GEMINI_API_KEY = your-api-key-here";
     lit "     ```";
     lit "5" ++ [65039%N; 8419%N] ++ lit " Click **Deploy** and your app will be live! " ++ [127881%N];
     []].

(** What the script puts on the page: the widgets of its top level, and
    the events of the submit handler. *)
Inductive widget : Type :=
| WTitle (text : str)             (* st.title *)
| WTextInput (label : str)        (* st.text_input *)
| WButton (label : str)           (* st.button *)
| WSidebarHeader (text : str)     (* st.sidebar.header *)
| WSidebarSubheader (text : str)  (* st.sidebar.subheader *)
| WSidebarWrite (text : str)      (* st.sidebar.write *)
| WMain (ev : event).             (* st.write, st.error and the handler's events *)

(** How a run of the script ends: at its last line, at [st.stop()], or by
    an exception nothing catches. *)
Inductive script_end : Type :=
| Finished
| Stopped
| Crashed (e : exn).

Definition PAGE_HEAD : list widget :=
  [WTitle TITLE; WMain (EvWrite TAGLINE);
   WTextInput SOURCE_LABEL; WTextInput DESTINATION_LABEL;
   WButton BUTTON_LABEL].

Definition SIDEBAR : list widget :=
  [WSidebarHeader ABOUT_HEADER; WSidebarWrite ABOUT_TEXT;
   WSidebarSubheader STACK_HEADER; WSidebarWrite STACK_TEXT;
   WSidebarSubheader DEPLOY_HEADER; WSidebarWrite DEPLOY_TEXT].

Section Script.

Variable num_repr : list value -> Q -> str.

(** Lines 19-43 build the client, the prompt template and the chain from
    the key.  What the libraries do there is not in the source: they hand
    back the chain or raise. *)
Variable build_chain : str -> outcome (str -> str -> outcome response).

(** One run of the script.  [secret] is what [st.secrets["GEMINI_API_KEY"]]
    does (the value, or the exception of a missing secret), [source] and
    [destination] are the contents of the two text inputs and [pressed] is
    what [st.button] returns. *)
Definition script (secret : outcome str) (source destination : str)
  (pressed : bool) : list widget * script_end :=
  match secret with
  | Raised e => ([], Crashed e)
  | Done gemini_api_key =>
      if negb (truthy gemini_api_key) then
        ([WMain (EvError MISSING_KEY_ERROR)], Stopped)
      else
        match build_chain gemini_api_key with
        | Raised e => ([], Crashed e)
        | Done travel_chain =>
            let handler :=
              if pressed
              then on_submit num_repr travel_chain source destination
              else ret tt in
            match handler [] with
            | (t, Done _) => (PAGE_HEAD ++ map WMain t ++ SIDEBAR, Finished)
            | (t, Raised e) => (PAGE_HEAD ++ map WMain t, Crashed e)
            end
        end
  end.

End Script.

(** The chain calls among the widgets of a page. *)
Definition page_chain_calls (page : list widget) : list (str * str) :=
  flat_map (fun w => match w with
                     | WMain (EvChainRun s d) => [(s, d)]
                     | _ => []
                     end) page.

(* ================================================================= *)
(** ** Further vocabulary *)

(** How often a character occurs in a string. *)
Definition count_char (c : char) (s : str) : nat :=
  List.length (filter (N.eqb c) s).

(** The width of the widest row. *)
Definition widest (rs : list (list str)) : nat :=
  list_max (map (@List.length str) rs).

(** The frame of rows that fit six columns: each row padded, then both
    numeric columns coerced. *)
Definition frame_of_rows (rs : list (list str)) : DataFrame :=
  mkDataFrame COLUMNS (map (fun r => coerce_row (pad_row 6 r)) rs).

(** The message of the constructor for rows of the wrong width. *)
Definition width_error (k : nat) : exn :=
  ValueError (lit "6 columns passed, passed data had " ++ nat_str k
              ++ lit " columns").

Definition is_text (v : value) : Prop :=
  match v with VStr _ | VNone => True | VNum _ | VNaN => False end.

Definition is_number (v : value) : Prop :=
  match v with VNum _ | VNaN => True | VStr _ | VNone => False end.

(** A record: text, number, number, text, text, text. *)
Definition record_shape (r : list value) : Prop :=
  match r with
  | [travel; price; time; descr; comfort; direct] =>
      is_text travel /\ is_number price /\ is_number time
      /\ is_text descr /\ is_text comfort /\ is_text direct
  | _ => False
  end.

(** The chain calls in a trace, with their arguments. *)
Definition chain_calls (t : trace) : list (str * str) :=
  flat_map (fun ev => match ev with
                      | EvChainRun s d => [(s, d)]
                      | _ => []
                      end) t.

(** The characters the coercion keeps. *)
Definition numeric_char (c : char) : bool := is_decimal c || (c =? DOT)%N.


(** Whether rows fit the six columns: there is none, or the widest has
    six fields. *)
Definition fits (rs : list (list str)) : bool :=
  match rs with
  | [] => true
  | _ :: _ => (widest rs =? 6)%nat
  end.

(** A reply without any table, and a table with a blank line in it. *)
Definition prose_reply : str :=
  join [NL] [lit "I could not find any route between these cities.";
             lit "Please check the spelling of both names.";
             lit "You can also try a larger city nearby.";
             lit "Have a nice trip!"].

Definition gapped_reply : str :=
  join [NL] [sample_header; sample_separator;
             table_row (nth 0 sample_cells []); [];
             table_row (nth 1 sample_cells []); sample_trailer].

(** A chain builder to run the script on. *)
Definition sample_build (key : str) : outcome (str -> str -> outcome response) :=
  Done sample_chain.

(* ================================================================= *)
(** ** Lemmas on splitting, joining, stripping and slicing *)

Lemma split_not_nil (sep : char) (s : str) : split sep s <> [].
Proof.
  destruct s as [|c s]; simpl; [discriminate|].
  destruct (c =? sep)%N; [discriminate|].
  destruct (split sep s); discriminate.
Qed.

Lemma split_no_sep (sep : char) (s : str) :
  ~ In sep s -> split sep s = [s].
Proof.
  induction s as [|c s IH]; simpl; intros H; [reflexivity|].
  destruct (N.eqb_spec c sep) as [->|Hne]; [exfalso; apply H; now left|].
  rewrite IH; [reflexivity|]. intros Hin; apply H; now right.
Qed.

Lemma split_app_sep (sep : char) (a b : str) :
  ~ In sep a -> split sep (a ++ sep :: b) = a :: split sep b.
Proof.
  induction a as [|c a IH]; simpl; intros H.
  - now rewrite N.eqb_refl.
  - destruct (N.eqb_spec c sep) as [->|Hne]; [exfalso; apply H; now left|].
    rewrite IH; [reflexivity|]. intros Hin; apply H; now right.
Qed.

Lemma join_cons (sep : str) (p q : str) (ps : list str) :
  join sep (p :: q :: ps) = p ++ sep ++ join sep (q :: ps).
Proof. reflexivity. Qed.

(** Splitting undoes joining, when no piece holds the separator. *)
Lemma split_join (sep : char) (ps : list str) :
  ps <> [] -> Forall (fun p => ~ In sep p) ps ->
  split sep (join [sep] ps) = ps.
Proof.
  induction ps as [|p ps IH]; intros Hne Hall; [congruence|].
  inversion Hall as [|? ? Hp Hps]; subst.
  destruct ps as [|q ps].
  - simpl. now apply split_no_sep.
  - rewrite join_cons. simpl app. rewrite split_app_sep by assumption.
    f_equal. apply IH; [discriminate|assumption].
Qed.

(** Joining undoes splitting: no character is lost by [split]. *)
Lemma join_split (sep : char) (s : str) : join [sep] (split sep s) = s.
Proof.
  induction s as [|c s IH]; [reflexivity|]. simpl.
  destruct (N.eqb_spec c sep) as [->|Hne].
  - pose proof (split_not_nil sep s) as Hnn.
    destruct (split sep s) as [|w ws] eqn:E; [congruence|].
    rewrite join_cons. simpl. now rewrite <- IH.
  - destruct (split sep s) as [|w ws] eqn:E.
    + now destruct (split_not_nil sep s).
    + rewrite <- IH. destruct ws; reflexivity.
Qed.

Lemma lstrip_spaces (ws s : str) :
  forallb is_space ws = true -> lstrip (ws ++ s) = lstrip s.
Proof.
  induction ws as [|c ws IH]; simpl; [reflexivity|].
  intros H. apply andb_prop in H as [Hc Hws]. rewrite Hc. now apply IH.
Qed.

Lemma lstrip_fixed (c : char) (s : str) :
  is_space c = false -> lstrip (c :: s) = c :: s.
Proof. intros H. simpl. now rewrite H. Qed.

Lemma forallb_rev {A : Type} (f : A -> bool) (l : list A) :
  forallb f (rev l) = forallb f l.
Proof.
  induction l as [|x l IH]; [reflexivity|].
  simpl. rewrite forallb_app, IH. simpl. rewrite andb_true_r. apply andb_comm.
Qed.

Lemma rstrip_spaces (s : str) (c : char) (ws : str) :
  is_space c = false -> forallb is_space ws = true ->
  rstrip (s ++ c :: ws) = s ++ [c].
Proof.
  intros Hc Hws. unfold rstrip.
  rewrite rev_app_distr. simpl rev. rewrite <- app_assoc.
  rewrite lstrip_spaces by now rewrite forallb_rev.
  simpl app. rewrite lstrip_fixed by assumption.
  simpl. now rewrite rev_involutive.
Qed.

(** The slice [[i:-1]] drops the first [i] elements and the last one. *)
Lemma py_slice_to_last {A : Type} (i : nat) (l : list A) :
  py_slice (Z.of_nat i) (-1) l = removelast (skipn i l).
Proof.
  unfold py_slice, adjust_index.
  rewrite removelast_firstn_len, length_skipn.
  destruct (Z.ltb_spec (Z.of_nat i) 0) as [Hneg|_]; [lia|].
  change (-1 <? 0)%Z with true. cbv iota.
  destruct (Nat.le_gt_cases (List.length l) i) as [Hle|Hgt].
  - rewrite (Z.min_r (Z.of_nat i)) by lia. rewrite Nat2Z.id.
    rewrite !skipn_all2 by lia. now rewrite !firstn_nil.
  - rewrite (Z.min_l (Z.of_nat i)) by lia. rewrite Z.max_r by lia. rewrite Nat2Z.id.
    f_equal. lia.
Qed.

Lemma py_slice_middle {A : Type} (front mid : list A) (z : A) :
  py_slice (Z.of_nat (List.length front)) (-1) (front ++ mid ++ [z]) = mid.
Proof.
  rewrite py_slice_to_last, skipn_app, skipn_all, Nat.sub_diag. simpl.
  apply removelast_last.
Qed.

Lemma py_slice_short {A : Type} (i : nat) (l : list A) :
  (List.length l <= S i)%nat -> py_slice (Z.of_nat i) (-1) l = [].
Proof.
  intros H. rewrite py_slice_to_last.
  pose proof (length_skipn i l) as Hlen.
  destruct (skipn i l) as [|x [|y r]]; simpl in *; try reflexivity; lia.
Qed.

(** Replacing every run of a class by the empty string keeps exactly the
    characters outside the class. *)
Lemma re_sub_runs_empty (cls : char -> bool) (b : bool) (s : str) :
  re_sub_runs cls [] b s = filter (fun c => negb (cls c)) s.
Proof.
  revert b. induction s as [|c s IH]; intros b; [reflexivity|].
  simpl. destruct (cls c); simpl.
  - destruct b; simpl; apply IH.
  - f_equal. apply IH.
Qed.

(* ================================================================= *)
(** ** Lemmas on table rows *)

Lemma is_space_not_bar (ws : str) : forallb is_space ws = true -> ~ In BAR ws.
Proof.
  induction ws as [|c ws IH]; simpl; intros H; [tauto|].
  apply andb_prop in H as [Hc Hws]. intros [->|Hin]; [discriminate|].
  now apply IH.
Qed.

Lemma table_row_last_gen (p : str) (cells : list str) :
  exists m, p ++ BAR :: flat_map (fun c => c ++ [BAR]) cells = m ++ [BAR].
Proof.
  revert p. induction cells as [|c cells IH]; intros p.
  - now exists p.
  - simpl. destruct (IH (p ++ BAR :: c)) as [m Hm]. exists m.
    rewrite <- Hm, <- !app_assoc. reflexivity.
Qed.

Lemma table_row_last (cells : list str) :
  exists m, table_row cells = m ++ [BAR].
Proof. apply (table_row_last_gen [] cells). Qed.

Lemma strip_delimited (ws1 ws2 rest m : str) (a z : char) :
  forallb is_space ws1 = true -> forallb is_space ws2 = true ->
  is_space a = false -> is_space z = false ->
  a :: rest = m ++ [z] ->
  strip (ws1 ++ (a :: rest) ++ ws2) = a :: rest.
Proof.
  intros H1 H2 Ha Hz E. unfold strip.
  rewrite lstrip_spaces by assumption.
  change ((a :: rest) ++ ws2) with (a :: rest ++ ws2).
  rewrite lstrip_fixed by assumption.
  change (a :: rest ++ ws2) with ((a :: rest) ++ ws2).
  rewrite E, <- app_assoc. simpl app. now apply rstrip_spaces.
Qed.

Lemma strip_table_row (ws1 ws2 : str) (cells : list str) :
  forallb is_space ws1 = true -> forallb is_space ws2 = true ->
  strip (ws1 ++ table_row cells ++ ws2) = table_row cells.
Proof.
  intros H1 H2. destruct (table_row_last cells) as [m Hm].
  unfold table_row in *. now apply strip_delimited with (m := m) (z := BAR).
Qed.

Lemma split_cells (cells : list str) :
  Forall (fun c => ~ In BAR c) cells ->
  split BAR (flat_map (fun c => c ++ [BAR]) cells) = cells ++ [[]].
Proof.
  induction 1 as [|c cells Hc _ IH]; [reflexivity|].
  simpl. rewrite <- app_assoc. simpl app.
  rewrite split_app_sep by assumption. now rewrite IH.
Qed.

Lemma split_table_row (cells : list str) :
  Forall (fun c => ~ In BAR c) cells ->
  split BAR (table_row cells) = [] :: cells ++ [[]].
Proof.
  intros H. unfold table_row.
  change (BAR :: flat_map (fun c => c ++ [BAR]) cells)
    with ([] ++ BAR :: flat_map (fun c : str => c ++ [BAR]) cells).
  rewrite split_app_sep by (intros []).
  now rewrite split_cells.
Qed.

(** The fields of a well-formed row are its cells, character for
    character, whatever white space surrounds the row. *)
Lemma row_fields_table_row (ws1 ws2 : str) (cells : list str) :
  forallb is_space ws1 = true -> forallb is_space ws2 = true ->
  Forall (fun c => ~ In BAR c) cells ->
  row_fields (ws1 ++ table_row cells ++ ws2) = cells.
Proof.
  intros H1 H2 Hc. unfold row_fields.
  rewrite strip_table_row by assumption.
  rewrite split_table_row by assumption.
  apply (py_slice_middle [[]] cells []).
Qed.

Lemma table_row_no_nl (cells : list str) :
  Forall cell_ok cells -> ~ In NL (table_row cells).
Proof.
  intros H. unfold table_row. intros [E|Hin]; [discriminate|].
  apply in_flat_map in Hin as (c & Hc & Hin).
  rewrite Forall_forall in H. destruct (H c Hc) as [_ Hnl].
  apply in_app_or in Hin as [Hin|[E|[]]]; [now apply Hnl|discriminate].
Qed.

(* ================================================================= *)
(** ** Lemmas on the frame *)

Lemma coerce_series (series : list value) :
  to_numeric_coerce (str_replace_non_numeric series) = map coerce_cell series.
Proof.
  unfold to_numeric_coerce, str_replace_non_numeric. rewrite map_map.
  apply map_ext. intros v. now destruct v.
Qed.

Lemma map_combine_map {A B C : Type} (g : A * B -> C) (h : A -> B) (l : list A) :
  map g (combine l (map h l)) = map (fun x => g (x, h x)) l.
Proof. induction l as [|x l IH]; simpl; [reflexivity|now rewrite IH]. Qed.

Lemma getitem_at (df : DataFrame) (name : str) (i : nat) :
  index_of name (df_columns df) = Some i ->
  getitem df name = Done (column_at i df).
Proof. intros H. unfold getitem. now rewrite H. Qed.

Lemma coerce_column_at (df : DataFrame) (name : str) (i : nat) :
  index_of name (df_columns df) = Some i ->
  coerce_column df name =
  Done (mkDataFrame (df_columns df)
          (map (fun row => set_nth i (coerce_cell (nth i row VNone)) row)
               (df_rows df))).
Proof.
  intros H. unfold coerce_column, getitem, setitem. rewrite H.
  rewrite coerce_series, map_map.
  now rewrite (map_combine_map (fun rv => set_nth i (snd rv) (fst rv))).
Qed.

Lemma pd_DataFrame_columns (rs : list (list str)) (cols : list str) (df : DataFrame) :
  pd_DataFrame rs cols = Done df -> df_columns df = cols.
Proof.
  unfold pd_DataFrame. destruct rs as [|r rs].
  - intros [= <-]. reflexivity.
  - destruct (_ =? _)%nat; [|discriminate]. intros [= <-]. reflexivity.
Qed.

(** The frame of a reply: the constructor, then both coercions row by row. *)
Lemma tabulate_eq (raw : str) :
  tabulate raw =
  match pd_DataFrame (rows raw) COLUMNS with
  | Done df0 => Done (mkDataFrame COLUMNS (map coerce_row (df_rows df0)))
  | Raised e => Raised e
  end.
Proof.
  unfold tabulate. destruct (pd_DataFrame (rows raw) COLUMNS) as [df0|e] eqn:E;
    [|reflexivity].
  apply pd_DataFrame_columns in E.
  rewrite (coerce_column_at df0 PRICE (i := 1)) by now rewrite E.
  rewrite (@coerce_column_at _ TIME 2) by (simpl df_columns; now rewrite E).
  simpl df_columns. simpl df_rows. rewrite E, map_map. reflexivity.
Qed.

Lemma tabulate_columns (raw : str) (df : DataFrame) :
  tabulate raw = Done df -> df_columns df = COLUMNS.
Proof.
  rewrite tabulate_eq. destruct (pd_DataFrame _ _); [|discriminate].
  intros [= <-]. reflexivity.
Qed.

Lemma list_max_six (l : list (list str)) :
  Forall (fun cs => List.length cs = 6) l -> l <> [] ->
  list_max (map (@List.length str) l) = 6.
Proof.
  induction 1 as [|cs l Hcs _ IH]; intros Hne; [congruence|].
  simpl. rewrite Hcs. destruct l as [|d l]; [reflexivity|].
  rewrite IH by discriminate. reflexivity.
Qed.

Lemma pd_DataFrame_six (cells : list (list str)) :
  Forall (fun cs => List.length cs = 6) cells ->
  pd_DataFrame cells COLUMNS = Done (mkDataFrame COLUMNS (map (map VStr) cells)).
Proof.
  intros H. destruct cells as [|c cells]; [reflexivity|].
  unfold pd_DataFrame. rewrite list_max_six by (assumption || discriminate).
  change (6 =? List.length COLUMNS)%nat with true. cbv iota.
  do 2 f_equal. apply map_ext_in. intros cs Hin.
  rewrite Forall_forall in H. unfold pad_row. rewrite (H cs Hin).
  apply app_nil_r.
Qed.

Lemma coerce_row_six (cs : list str) :
  List.length cs = 6 -> coerce_row (map VStr cs) = record_of cs.
Proof.
  destruct cs as [|a [|b [|c [|d [|e [|f [|g cs]]]]]]]; try discriminate.
  reflexivity.
Qed.

(** The frame of a reply that is two lines, rows of six cells, and one
    last line, whatever the number of rows. *)
Lemma tabulate_table (raw header separator trailer : str) (cells : list (list str)) :
  ~ In NL header -> ~ In NL separator -> ~ In NL trailer ->
  Forall (fun cs => List.length cs = 6 /\ Forall cell_ok cs) cells ->
  strip raw = join [NL] (header :: separator :: map table_row cells ++ [trailer]) ->
  rows raw = cells /\
  tabulate raw = Done (mkDataFrame COLUMNS (map record_of cells)).
Proof.
  intros Hh Hs Ht Hcells Hraw.
  assert (Hrows : rows raw = cells).
  { unfold rows, table_data. rewrite Hraw.
    rewrite split_join.
    - change (header :: separator :: map table_row cells ++ [trailer])
        with ([header; separator] ++ map table_row cells ++ [trailer]).
      rewrite (py_slice_middle [header; separator]).
      rewrite map_map. rewrite <- (map_id cells) at 2.
      apply map_ext_in. intros cs Hin.
      rewrite Forall_forall in Hcells. destruct (Hcells cs Hin) as [_ Hok].
      rewrite <- (app_nil_r (table_row cs)).
      apply (row_fields_table_row [] []); try reflexivity.
      eapply Forall_impl; [|exact Hok]. now intros c [Hb _].
    - discriminate.
    - repeat constructor; try assumption.
      apply Forall_app. split; [|now repeat constructor].
      apply Forall_map. eapply Forall_impl; [|exact Hcells].
      intros cs [_ Hok]. now apply table_row_no_nl. }
  split; [exact Hrows|].
  rewrite tabulate_eq, Hrows, pd_DataFrame_six.
  - simpl df_rows. rewrite map_map. do 2 f_equal.
    apply map_ext_in. intros cs Hin.
    rewrite Forall_forall in Hcells. destruct (Hcells cs Hin) as [Hlen _].
    now apply coerce_row_six.
  - eapply Forall_impl; [|exact Hcells]. now intros cs [Hlen _].
Qed.

(** A reply of at most three lines leaves no row. *)
Lemma tabulate_short (raw : str) :
  List.length (split NL (strip raw)) <= 3 ->
  rows raw = [] /\ tabulate raw = Done (mkDataFrame COLUMNS []).
Proof.
  intros H.
  assert (Hrows : rows raw = []).
  { unfold rows, table_data. now rewrite (@py_slice_short _ 2) by assumption. }
  split; [exact Hrows|]. now rewrite tabulate_eq, Hrows.
Qed.

Lemma not_in_b (c : char) (s : str) :
  forallb (fun x => negb (x =? c)%N) s = true -> ~ In c s.
Proof.
  induction s as [|x s IH]; simpl; [tauto|].
  intros H. apply andb_prop in H as [Hx Hs].
  intros [->|Hin]; [now rewrite N.eqb_refl in Hx|now apply IH].
Qed.

(* ================================================================= *)
(** ** Stripping a row does not change its middle segments *)

Lemma lstrip_decomp (s : str) :
  exists ws, s = ws ++ lstrip s /\ forallb is_space ws = true.
Proof.
  induction s as [|c s (ws & E & Hws)]; [now exists []|].
  simpl. destruct (is_space c) eqn:Hc.
  - exists (c :: ws). simpl. rewrite Hc, Hws. split; [now rewrite <- E|reflexivity].
  - now exists [].
Qed.

Lemma rstrip_decomp (s : str) :
  exists ws, s = rstrip s ++ ws /\ forallb is_space ws = true.
Proof.
  destruct (lstrip_decomp (rev s)) as (ws & E & Hws).
  exists (rev ws). split; [|now rewrite forallb_rev].
  unfold rstrip. rewrite <- rev_app_distr, <- E. now rewrite rev_involutive.
Qed.

Lemma strip_decomp (s : str) :
  exists ws1 ws2, s = ws1 ++ strip s ++ ws2
                  /\ forallb is_space ws1 = true /\ forallb is_space ws2 = true.
Proof.
  destruct (lstrip_decomp s) as (ws1 & E1 & H1).
  destruct (rstrip_decomp (lstrip s)) as (ws2 & E2 & H2).
  exists ws1, ws2. unfold strip. now rewrite <- E2, <- E1.
Qed.

Lemma split_prefix (sep : char) (ws s : str) :
  ~ In sep ws ->
  split sep (ws ++ s) =
  match split sep s with
  | w :: r => (ws ++ w) :: r
  | [] => []
  end.
Proof.
  induction ws as [|c ws IH]; intros H.
  - simpl. now destruct (split sep s).
  - simpl. destruct (N.eqb_spec c sep) as [->|Hne]; [exfalso; apply H; now left|].
    rewrite IH by (intros Hin; apply H; now right).
    pose proof (split_not_nil sep s) as Hnn.
    destruct (split sep s); [congruence|reflexivity].
Qed.

Lemma split_suffix (sep : char) (s ws : str) :
  ~ In sep ws ->
  split sep (s ++ ws) =
  removelast (split sep s) ++ [last (split sep s) [] ++ ws].
Proof.
  intros H. induction s as [|c s IH].
  - simpl. now apply split_no_sep.
  - pose proof (split_not_nil sep s) as Hnn. simpl.
    destruct (N.eqb_spec c sep) as [->|Hne].
    + rewrite IH. destruct (split sep s) as [|w r]; [congruence|]. reflexivity.
    + rewrite IH. destruct (split sep s) as [|w [|x r]]; [congruence| |]; reflexivity.
Qed.

Lemma middle_removelast {A : Type} (l : list A) (x : A) :
  l <> [] ->
  removelast (skipn 1 (removelast l ++ [x])) = removelast (skipn 1 l).
Proof.
  destruct l as [|w [|y r]]; intros H; [congruence|reflexivity|].
  change (removelast (w :: y :: r)) with (w :: removelast (y :: r)).
  simpl skipn. now rewrite removelast_last.
Qed.

Lemma middle_prefix (ws : str) (pieces : list str) :
  removelast (skipn 1 pieces) =
  removelast (skipn 1 match pieces with
                      | [] => []
                      | w :: r => (ws ++ w) :: r
                      end).
Proof. now destruct pieces. Qed.

(** The fields of a row, computed on the row as it stands. *)
Lemma row_fields_unstripped (row : str) :
  row_fields row = removelast (skipn 1 (split BAR row)).
Proof.
  unfold row_fields. rewrite (@py_slice_to_last _ 1).
  destruct (strip_decomp row) as (ws1 & ws2 & E & H1 & H2).
  rewrite E at 2.
  rewrite split_prefix by now apply is_space_not_bar.
  rewrite split_suffix by now apply is_space_not_bar.
  pose proof (split_not_nil BAR (strip row)) as Hnn.
  etransitivity;
    [symmetry; apply (middle_removelast (last (split BAR (strip row)) [] ++ ws2) Hnn)|].
  apply middle_prefix.
Qed.

(* ================================================================= *)
(** ** What the script emits *)

Section AppFacts.

Variable num_repr : list value -> Q -> str.
Variable travel_chain : str -> str -> outcome response.

Lemma to_csv_header (df : DataFrame) :
  df_columns df = COLUMNS ->
  to_csv num_repr df
  = CSV_HEADER ++ NL :: flat_map (csv_row num_repr df) (df_rows df).
Proof.
  intros H. unfold to_csv. rewrite H.
  change (csv_line COLUMNS) with (CSV_HEADER ++ [NL]).
  now rewrite <- app_assoc.
Qed.

Lemma tabulation_done (raw : str) (df : DataFrame) (t : trace) :
  tabulate raw = Done df ->
  tabulation num_repr raw t = (t ++ success_events num_repr df, Done tt).
Proof.
  intros H. pose proof (tabulate_columns raw H) as Hc.
  unfold tabulation, try_except, tabulation_body, bind, lift, emit, bar_chart.
  rewrite H.
  rewrite (@getitem_at df TRAVEL_TYPE 0), (@getitem_at df PRICE 1),
    (@getitem_at df TIME 2) by now rewrite Hc.
  unfold success_events, price_chart, time_chart.
  now rewrite <- !app_assoc.
Qed.

Lemma tabulation_raised (raw : str) (e : exn) (t : trace) :
  tabulate raw = Raised e ->
  tabulation num_repr raw t
  = (t ++ [EvError (PROCESSING_ERROR ++ exn_str e)], Done tt).
Proof.
  intros H. unfold tabulation, try_except, tabulation_body, bind, lift, emit.
  now rewrite H.
Qed.

(** A tabulation only adds to the page, and what it adds does not depend
    on what is there. *)
Lemma tabulation_appends (raw : str) (t : trace) :
  tabulation num_repr raw t = (t ++ run (tabulation num_repr raw), Done tt).
Proof.
  unfold run. destruct (tabulate raw) as [df|e] eqn:E.
  - now rewrite (@tabulation_done raw df t E), (@tabulation_done raw df [] E).
  - now rewrite (@tabulation_raised raw e t E), (@tabulation_raised raw e [] E).
Qed.

Lemma bind_emit {B : Type} (ev : event) (k : unit -> ui B) (t : trace) :
  bind (emit ev) k t = k tt (t ++ [ev]).
Proof. reflexivity. Qed.

Lemma bind_done {A B : Type} (m : ui A) (k : A -> ui B) (t t' : trace) (a : A) :
  m t = (t', Done a) -> bind m k t = k a t'.
Proof. intros H. unfold bind. now rewrite H. Qed.

Lemma get_travel_recommendations_returns (source destination : str) (t : trace) :
  get_travel_recommendations travel_chain source destination t
  = (t ++ [EvChainRun source destination],
     Done (reply_text (travel_chain source destination))).
Proof.
  unfold get_travel_recommendations, try_except.
  rewrite bind_emit. unfold bind, lift, ret.
  now destruct (travel_chain source destination) as [[text|[text|e]]|e].
Qed.

End AppFacts.

(* ================================================================= *)
(** ** The tabulator on tables *)

(** C1, as the code has it: when the stripped reply is a header line, a
    separator line, exactly five rows of six bar-delimited cells and then
    one further last line (trailing prose), the tabulator produces exactly
    five records under the six named columns, in the order of the rows:
    the Price and Time cells coerced, the other cells as written. *)
Theorem tabulate_five_rows_then_trailer
  (raw header separator trailer : str) (cells : list (list str)) :
  ~ In NL header -> ~ In NL separator -> ~ In NL trailer ->
  List.length cells = 5 ->
  Forall (fun cs => List.length cs = 6 /\ Forall cell_ok cs) cells ->
  strip raw = join [NL] (header :: separator :: map table_row cells ++ [trailer]) ->
  tabulate raw = Done (mkDataFrame COLUMNS (map record_of cells))
  /\ List.length (map record_of cells) = 5
  /\ Forall (fun record => List.length record = List.length COLUMNS)
            (map record_of cells).
Proof.
  intros Hh Hs Ht Hfive Hcells Hraw.
  destruct (@tabulate_table raw header separator trailer cells Hh Hs Ht Hcells Hraw)
    as [_ Htab].
  split; [exact Htab|]. split; [now rewrite length_map|].
  apply Forall_map. eapply Forall_impl; [|exact Hcells].
  intros cs [Hlen _].
  destruct cs as [|a [|b [|c [|d [|e [|f [|g cs]]]]]]]; try discriminate.
  reflexivity.
Qed.

(** C1 as stated fails: on the table alone (header, separator and five
    well-formed rows, nothing after them) the last row is discarded with
    the final line, and four records result. *)
Lemma table_alone_loses_last_row :
  sample_table
  = join [NL] (sample_header :: sample_separator :: map table_row sample_cells)
  /\ List.length sample_cells = 5
  /\ tabulate sample_table
     = Done (mkDataFrame COLUMNS (map record_of (firstn 4 sample_cells)))
  /\ List.length (map record_of (firstn 4 sample_cells)) = 4.
Proof.
  split; [reflexivity|]. split; [reflexivity|].
  split; [vm_compute; reflexivity|reflexivity].
Qed.

(** C4, as the code has it: the line selection strips the whole reply
    first and then drops the first two lines and the last line of the
    stripped text; the row splitting keeps the segments between the first
    and the last bar-separated segment of each kept line (stripping the
    line beforehand changes nothing there). *)
Theorem line_selection_and_row_splitting (raw : str) :
  table_data raw = table_data_spec (strip raw)
  /\ rows raw = map row_fields_spec (table_data raw).
Proof.
  split.
  - unfold table_data, table_data_spec. apply (@py_slice_to_last _ 2).
  - unfold rows. apply map_ext. intros row. apply row_fields_unstripped.
Qed.

(** C4 as stated fails: on a reply that ends with a line break, the lines
    of the reply itself without the first two and the last are both data
    rows, while the code, which strips the reply before splitting, keeps
    only the first of them. *)
Lemma line_selection_strips_first :
  let raw := join [NL] [lit "H"; lit "S"; lit "|a|"; lit "|b|"; []] in
  table_data_spec raw = [lit "|a|"; lit "|b|"]
  /\ table_data raw = [lit "|a|"].
Proof. split; vm_compute; reflexivity. Qed.

(** C3: the coercion of a Price or Time cell keeps exactly the characters
    that are digits or the decimal point, then parses the rest; the result
    is a number or the missing value, never an exception.  The rupee price
    gives 1200, "N/A" gives the missing value, "2.5 hrs" gives 2.5. *)
Theorem price_time_coercion :
  (forall s : str,
      coerce_cell (VStr s)
      = match parse_decimal
                (filter (fun c => is_decimal c || (c =? DOT)%N) s) with
        | Some q => VNum q
        | None => VNaN
        end)
  /\ (forall v : value, coerce_cell v = VNaN \/ exists q, coerce_cell v = VNum q)
  /\ coerce_cell (VStr (8377%N :: lit "1200")) = VNum (Qmake 1200 1)
  /\ coerce_cell (VStr (lit "N/A")) = VNaN
  /\ coerce_cell (VStr (lit "2.5 hrs")) = VNum (Qmake 5 2).
Proof.
  assert (Hs : forall s : str,
             coerce_cell (VStr s)
             = match parse_decimal
                       (filter (fun c => is_decimal c || (c =? DOT)%N) s) with
               | Some q => VNum q
               | None => VNaN
               end).
  { intros s. unfold coerce_cell. simpl.
    unfold strip_non_numeric. rewrite re_sub_runs_empty.
    rewrite (filter_ext (fun c => negb (not_digit_or_dot c))
                        (fun c => is_decimal c || (c =? DOT)%N))
      by (intros c; unfold not_digit_or_dot; apply negb_involutive).
    reflexivity. }
  split; [exact Hs|]. split.
  - intros [s| |q|]; try (left; reflexivity).
    rewrite Hs. destruct (parse_decimal _) as [q|]; [right; now exists q|now left].
  - repeat split; vm_compute; reflexivity.
Qed.

(** C10: the fields of a row are not trimmed.  White space around the
    whole line is removed, but every cell between two bars comes out
    character for character, spaces included; the Travel Type of the
    record, which is the chart category and the CSV cell, is the first
    cell as written, and the CSV writer leaves it as it is when it holds
    no comma, quote or line break. *)
Theorem fields_keep_their_spaces (ws1 ws2 : str) (cells : list str) :
  forallb is_space ws1 = true -> forallb is_space ws2 = true ->
  List.length cells = 6 ->
  Forall (fun c => ~ In BAR c) cells ->
  row_fields (ws1 ++ table_row cells ++ ws2) = cells
  /\ nth 0 (coerce_row (pad_row 6 (row_fields (ws1 ++ table_row cells ++ ws2))))
         VNone
     = VStr (nth 0 cells [])
  /\ (existsb csv_special (nth 0 cells []) = false ->
      csv_field (nth 0 cells []) = nth 0 cells []).
Proof.
  intros H1 H2 Hlen Hbar.
  pose proof (@row_fields_table_row ws1 ws2 cells H1 H2 Hbar) as Hrow.
  split; [exact Hrow|]. split.
  - rewrite Hrow.
    destruct cells as [|a [|b [|c [|d [|e [|f [|g cs]]]]]]]; try discriminate.
    reflexivity.
  - intros Hplain. unfold csv_field. now rewrite Hplain.
Qed.

(* ================================================================= *)
(** ** The script on the page *)

Section Claims.

Variable num_repr : list value -> Q -> str.
Variable travel_chain : str -> str -> outcome response.

(** C2, as the code has it: a reply whose stripped form has fewer than
    three lines does not fault and does not reach the handler either; the
    slice is empty, so the frame has no row, both charts are drawn without
    any category and the download holds the header row alone. *)
Theorem short_reply_gives_empty_table (raw : str) :
  List.length (split NL (strip raw)) < 3 ->
  tabulate raw = Done (mkDataFrame COLUMNS [])
  /\ run (tabulation num_repr raw)
     = [EvPlotlyChart (mkFigure [mkBar [] []] PRICE_TITLE TRAVEL_TYPE PRICE_AXIS);
        EvPlotlyChart (mkFigure [mkBar [] []] TIME_TITLE TRAVEL_TYPE TIME_AXIS);
        EvDownloadButton DOWNLOAD_LABEL (CSV_HEADER ++ [NL])
          (lit "travel_data.csv") (lit "text/csv")].
Proof.
  intros Hshort.
  assert (Hle : List.length (split NL (strip raw)) <= 3) by lia.
  destruct (tabulate_short raw Hle) as [_ Htab].
  split; [exact Htab|].
  unfold run. rewrite (@tabulation_done num_repr raw _ [] Htab).
  reflexivity.
Qed.

(** C5: whenever a reply is tabulated, the script offers one download,
    and its data begins with the header row
    [Travel Type,Price (Estimated),Time (Estimated),Description,Comfort Level,Directness]
    followed by a line break. *)
Theorem csv_begins_with_header (raw : str) (df : DataFrame) :
  tabulate raw = Done df ->
  exists body,
    to_csv num_repr df = CSV_HEADER ++ NL :: body
    /\ run (tabulation num_repr raw)
       = [EvPlotlyChart (price_chart df);
          EvPlotlyChart (time_chart df);
          EvDownloadButton DOWNLOAD_LABEL (CSV_HEADER ++ NL :: body)
            (lit "travel_data.csv") (lit "text/csv")].
Proof.
  intros Htab.
  exists (flat_map (csv_row num_repr df) (df_rows df)).
  pose proof (to_csv_header num_repr df (tabulate_columns raw Htab)) as Hcsv.
  split; [exact Hcsv|].
  unfold run. rewrite (@tabulation_done num_repr raw df [] Htab).
  unfold success_events. now rewrite Hcsv.
Qed.

(** C6: a submit with an empty source or an empty destination shows the
    validation error and does nothing else; in particular the chain is
    not called. *)
Theorem empty_field_blocks_request (source destination : str) (t : trace) :
  source = [] \/ destination = [] ->
  on_submit num_repr travel_chain source destination t
  = (t ++ [EvError VALIDATION_ERROR], Done tt)
  /\ forallb (fun ev => match ev with EvChainRun _ _ => false | _ => true end)
       (run (on_submit num_repr travel_chain source destination)) = true.
Proof.
  intros Hempty.
  assert (Hgate : truthy source && truthy destination = false).
  { destruct Hempty as [-> | ->]; [reflexivity|apply andb_false_r]. }
  unfold run, on_submit. rewrite Hgate. split; reflexivity.
Qed.

(** C7: the composer never lets an exception of the chain escape.  When
    the call raises, it returns the text "An error occurred: " followed by
    the cause; when the call returns a string, it returns that string. *)
Theorem composer_catches_failures (source destination : str) (t : trace) :
  (forall e, travel_chain source destination = Raised e ->
     get_travel_recommendations travel_chain source destination t
     = (t ++ [EvChainRun source destination],
        Done (lit "An error occurred: " ++ exn_str e)))
  /\ (forall text, travel_chain source destination = Done (RespStr text) ->
     get_travel_recommendations travel_chain source destination t
     = (t ++ [EvChainRun source destination], Done text))
  /\ exists text,
     get_travel_recommendations travel_chain source destination t
     = (t ++ [EvChainRun source destination], Done text).
Proof.
  rewrite get_travel_recommendations_returns.
  split; [|split].
  - intros e He. now rewrite He.
  - intros text Htext. now rewrite Htext.
  - now exists (reply_text (travel_chain source destination)).
Qed.

(** C8: tabulating the same reply twice gives the same records.  The second
    run, started on the page the first one left, emits the very charts and
    CSV of the first, and both are those of a run on an empty page. *)
Theorem tabulation_twice_same_records (raw : str) (t : trace) :
  bind (tabulation num_repr raw) (fun _ => tabulation num_repr raw) t
  = (t ++ run (tabulation num_repr raw) ++ run (tabulation num_repr raw),
     Done tt).
Proof.
  unfold bind. rewrite (tabulation_appends num_repr raw t).
  rewrite (tabulation_appends num_repr raw (t ++ run (tabulation num_repr raw))).
  now rewrite <- app_assoc.
Qed.

(** C9, as the code has it: when the chain raises, the error text is
    written and then tabulated like a reply.  The tabulation either yields
    a frame, with both charts and the download, or ends in the processing
    error; the frame is empty whenever the stripped error text has at most
    three lines, as it has for a cause of one line. *)
Theorem failed_generation_is_tabulated (source destination : str) (e : exn) :
  truthy source = true -> truthy destination = true ->
  travel_chain source destination = Raised e ->
  let err := lit "An error occurred: " ++ exn_str e in
  run (on_submit num_repr travel_chain source destination)
  = [EvWrite (lit "Generating travel options from **" ++ source
              ++ lit "** to **" ++ destination ++ lit "**...");
     EvChainRun source destination;
     EvWrite (lit "### Travel Recommendations:");
     EvWrite err]
    ++ run (tabulation num_repr err)
  /\ ((exists df, tabulate err = Done df
                  /\ run (tabulation num_repr err) = success_events num_repr df)
      \/ (exists e', tabulate err = Raised e'
                     /\ run (tabulation num_repr err)
                        = [EvError (PROCESSING_ERROR ++ exn_str e')]))
  /\ (List.length (split NL (strip err)) <= 3 ->
      run (tabulation num_repr err)
      = success_events num_repr (mkDataFrame COLUMNS [])).
Proof.
  intros Hs Hd Hfail err. split; [|split].
  - unfold run, on_submit. rewrite Hs, Hd.
    change (true && true) with true. cbv iota.
    rewrite bind_emit.
    erewrite bind_done by apply get_travel_recommendations_returns.
    rewrite Hfail. cbn [reply_text]. fold err. rewrite !bind_emit.
    rewrite (tabulation_appends num_repr err). cbn [app fst]. reflexivity.
  - unfold run. destruct (tabulate err) as [df|e'] eqn:E.
    + left. exists df. split; [reflexivity|].
      now rewrite (@tabulation_done num_repr err df [] E).
    + right. exists e'. split; [reflexivity|].
      now rewrite (@tabulation_raised num_repr err e' [] E).
  - intros Hle. destruct (tabulate_short err Hle) as [_ Htab].
    unfold run. now rewrite (@tabulation_done num_repr err _ [] Htab).
Qed.

End Claims.

(* ================================================================= *)
(** ** The claims on concrete replies *)

(** The sample reply, a table followed by one line of prose, gives the
    five records of its rows. *)
Lemma tabulate_five_rows_then_trailer_witness :
  tabulate sample_reply = Done (mkDataFrame COLUMNS (map record_of sample_cells))
  /\ List.length (map record_of sample_cells) = 5
  /\ Forall (fun record => List.length record = List.length COLUMNS)
            (map record_of sample_cells).
Proof.
  apply (@tabulate_five_rows_then_trailer sample_reply sample_header
           sample_separator sample_trailer sample_cells);
    try (apply not_in_b; vm_compute; reflexivity);
    try reflexivity.
  repeat first [ apply not_in_b; vm_compute; reflexivity
               | reflexivity
               | constructor ].
Defined.

(** A refusal of one line is fewer than three lines. *)
Lemma short_reply_gives_empty_table_witness :
  tabulate (lit "Sorry, I cannot help with that.") = Done (mkDataFrame COLUMNS [])
  /\ run (tabulation fraction_repr (lit "Sorry, I cannot help with that."))
     = [EvPlotlyChart (mkFigure [mkBar [] []] PRICE_TITLE TRAVEL_TYPE PRICE_AXIS);
        EvPlotlyChart (mkFigure [mkBar [] []] TIME_TITLE TRAVEL_TYPE TIME_AXIS);
        EvDownloadButton DOWNLOAD_LABEL (CSV_HEADER ++ [NL])
          (lit "travel_data.csv") (lit "text/csv")].
Proof.
  apply (@short_reply_gives_empty_table fraction_repr
           (lit "Sorry, I cannot help with that.")).
  vm_compute. lia.
Defined.

(** C2 as stated fails: a reply of one line does not take the failure
    path.  No error is shown, both charts are drawn and the download is
    offered. *)
Lemma short_reply_shows_no_error :
  let raw := lit "Sorry, I cannot help with that." in
  List.length (split NL (strip raw)) = 1
  /\ run (tabulation fraction_repr raw)
     = success_events fraction_repr (mkDataFrame COLUMNS [])
  /\ forallb (fun ev => match ev with EvError _ => false | _ => true end)
       (run (tabulation fraction_repr raw)) = true.
Proof. repeat split; vm_compute; reflexivity. Qed.

Lemma csv_begins_with_header_witness :
  exists body,
    to_csv fraction_repr (mkDataFrame COLUMNS (map record_of sample_cells))
    = CSV_HEADER ++ NL :: body
    /\ run (tabulation fraction_repr sample_reply)
       = [EvPlotlyChart (price_chart (mkDataFrame COLUMNS (map record_of sample_cells)));
          EvPlotlyChart (time_chart (mkDataFrame COLUMNS (map record_of sample_cells)));
          EvDownloadButton DOWNLOAD_LABEL (CSV_HEADER ++ NL :: body)
            (lit "travel_data.csv") (lit "text/csv")].
Proof.
  apply (@csv_begins_with_header fraction_repr sample_reply
           (mkDataFrame COLUMNS (map record_of sample_cells))).
  vm_compute. reflexivity.
Defined.

Lemma empty_field_blocks_request_witness :
  on_submit fraction_repr sample_chain [] (lit "Pune") []
  = ([] ++ [EvError VALIDATION_ERROR], Done tt)
  /\ forallb (fun ev => match ev with EvChainRun _ _ => false | _ => true end)
       (run (on_submit fraction_repr sample_chain [] (lit "Pune"))) = true.
Proof.
  apply (@empty_field_blocks_request fraction_repr sample_chain [] (lit "Pune") []).
  left. reflexivity.
Defined.

Lemma composer_catches_failures_witness :
  get_travel_recommendations quota_chain (lit "Mumbai") (lit "Pune") []
  = ([] ++ [EvChainRun (lit "Mumbai") (lit "Pune")],
     Done (lit "An error occurred: " ++ exn_str (Exception (lit "quota exceeded"))))
  /\ get_travel_recommendations sample_chain (lit "Mumbai") (lit "Pune") []
     = ([] ++ [EvChainRun (lit "Mumbai") (lit "Pune")], Done sample_reply).
Proof.
  split.
  - apply (proj1 (@composer_catches_failures quota_chain (lit "Mumbai")
                    (lit "Pune") [])).
    reflexivity.
  - apply (proj1 (proj2 (@composer_catches_failures sample_chain (lit "Mumbai")
                           (lit "Pune") []))).
    reflexivity.
Defined.

(** A quota error of one line: the error text is tabulated, into an empty
    frame with its charts and download. *)
Lemma failed_generation_is_tabulated_witness :
  run (on_submit fraction_repr quota_chain (lit "Mumbai") (lit "Pune"))
  = [EvWrite (lit "Generating travel options from **" ++ lit "Mumbai"
              ++ lit "** to **" ++ lit "Pune" ++ lit "**...");
     EvChainRun (lit "Mumbai") (lit "Pune");
     EvWrite (lit "### Travel Recommendations:");
     EvWrite (lit "An error occurred: " ++ lit "quota exceeded")]
    ++ run (tabulation fraction_repr (lit "An error occurred: " ++ lit "quota exceeded")).
Proof.
  apply (@failed_generation_is_tabulated fraction_repr quota_chain
           (lit "Mumbai") (lit "Pune") (Exception (lit "quota exceeded")));
    reflexivity.
Defined.

(** C9 as stated fails in its list of outcomes: an error text that quotes
    a table row of the prompt is tabulated into a frame of one record,
    neither empty nor an error. *)
Lemma failure_text_can_fill_the_table :
  let err := lit "An error occurred: " ++ exn_str (Exception echo_cause) in
  let df := mkDataFrame COLUMNS [record_of (nth 0 sample_cells [])] in
  tabulate err = Done df
  /\ List.length (df_rows df) = 1
  /\ run (on_submit fraction_repr echo_chain (lit "Mumbai") (lit "Pune"))
     = [EvWrite (lit "Generating travel options from **Mumbai** to **Pune**...");
        EvChainRun (lit "Mumbai") (lit "Pune");
        EvWrite (lit "### Travel Recommendations:");
        EvWrite err]
       ++ success_events fraction_repr df.
Proof. repeat split; vm_compute; reflexivity. Qed.

(** An indented row whose cells are padded with spaces. *)
Lemma fields_keep_their_spaces_witness :
  row_fields (lit "    " ++ table_row (nth 0 sample_cells []) ++ lit " ")
  = nth 0 sample_cells []
  /\ nth 0 (coerce_row (pad_row 6
              (row_fields (lit "    " ++ table_row (nth 0 sample_cells [])
                           ++ lit " ")))) VNone
     = VStr (nth 0 (nth 0 sample_cells []) [])
  /\ (existsb csv_special (nth 0 (nth 0 sample_cells []) []) = false ->
      csv_field (nth 0 (nth 0 sample_cells []) []) = nth 0 (nth 0 sample_cells []) []).
Proof.
  apply (@fields_keep_their_spaces (lit "    ") (lit " ") (nth 0 sample_cells []));
    try reflexivity.
  repeat first [ apply not_in_b; vm_compute; reflexivity | constructor ].
Defined.

(* ================================================================= *)
(** ** Further properties of the tabulator *)

Lemma split_length (sep : char) (s : str) :
  List.length (split sep s) = S (count_char sep s).
Proof.
  unfold count_char. induction s as [|c s IH]; [reflexivity|].
  pose proof (split_not_nil sep s) as Hnn. simpl.
  rewrite (N.eqb_sym sep c). destruct (c =? sep)%N; simpl.
  - now rewrite IH.
  - destruct (split sep s) as [|w ws]; [congruence|]. exact IH.
Qed.

Lemma split_pieces (sep : char) (s : str) :
  Forall (fun piece => forall c, In c piece -> In c s /\ c <> sep) (split sep s).
Proof.
  induction s as [|c s IH]; simpl.
  - constructor; [intros c []|constructor].
  - destruct (N.eqb_spec c sep) as [->|Hne].
    + constructor; [intros x []|].
      eapply Forall_impl; [|exact IH]. intros piece H x Hx.
      destruct (H x Hx). split; [now right|assumption].
    + pose proof (split_not_nil sep s) as Hnn.
      destruct (split sep s) as [|w ws]; [congruence|].
      inversion IH as [|? ? Hw Hws]; subst. constructor.
      * intros x [<-|Hx]; [split; [now left|assumption]|].
        destruct (Hw x Hx). split; [now right|assumption].
      * eapply Forall_impl; [|exact Hws]. intros piece H x Hx.
        destruct (H x Hx). split; [now right|assumption].
Qed.

Lemma Forall_py_slice {A : Type} (P : A -> Prop) (i j : Z) (l : list A) :
  Forall P l -> Forall P (py_slice i j l).
Proof.
  intros H. unfold py_slice.
  generalize (Z.to_nat (adjust_index (Z.of_nat (List.length l)) j
                        - adjust_index (Z.of_nat (List.length l)) i)).
  generalize (Z.to_nat (adjust_index (Z.of_nat (List.length l)) i)).
  intros lo n.
  rewrite <- (firstn_skipn lo l) in H. apply Forall_app in H as [_ H].
  rewrite <- (firstn_skipn n (skipn lo l)) in H. now apply Forall_app in H as [H _].
Qed.

Lemma length_removelast {A : Type} (l : list A) :
  List.length (removelast l) = pred (List.length l).
Proof. rewrite removelast_firstn_len, length_firstn. lia. Qed.

Lemma in_strip (c : char) (s : str) : In c (strip s) -> In c s.
Proof.
  destruct (strip_decomp s) as (ws1 & ws2 & E & _ & _). intros H.
  rewrite E. apply in_or_app. right. apply in_or_app. now left.
Qed.

(** X1: a line gives one field less than it has bars (none when it has
    fewer than two), so a record needs exactly seven bars. *)
Theorem row_fields_count (row : str) :
  List.length (row_fields row) = count_char BAR row - 1
  /\ (List.length (row_fields row) = 6 <-> count_char BAR row = 7).
Proof.
  assert (H : List.length (row_fields row) = count_char BAR row - 1).
  { rewrite row_fields_unstripped, length_removelast, length_skipn, split_length.
    lia. }
  split; [exact H|]. rewrite H. lia.
Qed.

(** X2: no field of any row holds a bar or a line break, and each of its
    characters comes from the reply. *)
Theorem fields_are_clean (raw : str) :
  Forall (Forall (fun field =>
            forall c, In c field -> In c raw /\ c <> BAR /\ c <> NL))
         (rows raw).
Proof.
  unfold rows, table_data. apply Forall_map. apply Forall_py_slice.
  eapply Forall_impl; [|apply (split_pieces NL (strip raw))].
  intros line Hline. unfold row_fields. apply Forall_py_slice.
  eapply Forall_impl; [|apply (split_pieces BAR (strip line))].
  intros field Hfield c Hc.
  destruct (Hfield c Hc) as [Hin Hbar].
  destruct (Hline c (in_strip _ _ Hin)) as [Hraw Hnl].
  split; [now apply in_strip|]. now split.
Qed.

(** The frame as a function of the rows. *)
Lemma tabulate_closed (raw : str) :
  tabulate raw =
  if fits (rows raw) then Done (frame_of_rows (rows raw))
  else Raised (width_error (widest (rows raw))).
Proof.
  rewrite tabulate_eq. unfold fits, pd_DataFrame, frame_of_rows.
  destruct (rows raw) as [|r rs] eqn:E; [reflexivity|].
  fold (widest (r :: rs)).
  change (List.length COLUMNS) with 6.
  destruct (Nat.eqb_spec (widest (r :: rs)) 6) as [H6|Hne].
  - rewrite H6. cbn [df_rows]. now rewrite map_map.
  - reflexivity.
Qed.

Lemma coerce_cell_number (v : value) : is_number (coerce_cell v).
Proof.
  destruct v as [s| |q|]; try exact I.
  unfold coerce_cell. simpl.
  now destruct (parse_decimal (strip_non_numeric s)).
Qed.

Lemma coerce_row_shape (l : list value) :
  List.length l = 6 -> Forall is_text l -> record_shape (coerce_row l).
Proof.
  destruct l as [|a [|b [|c [|d [|e [|f [|g l]]]]]]]; try discriminate.
  intros _ H.
  inversion H as [|? ? Ha H1]; subst. inversion H1 as [|? ? Hb H2]; subst.
  inversion H2 as [|? ? Hc H3]; subst. inversion H3 as [|? ? Hd H4]; subst.
  inversion H4 as [|? ? He H5]; subst. inversion H5 as [|? ? Hf H6]; subst.
  unfold coerce_row. cbn [set_nth nth record_shape].
  repeat split; try assumption; apply coerce_cell_number.
Qed.

Lemma pad_row_text (k : nat) (r : list str) : Forall is_text (pad_row k r).
Proof.
  unfold pad_row. apply Forall_app. split.
  - apply Forall_map. apply Forall_forall. now intros.
  - apply Forall_forall. intros v Hv. apply repeat_spec in Hv. now subst.
Qed.

Lemma pad_row_length (k : nat) (r : list str) :
  List.length r <= k -> List.length (pad_row k r) = k.
Proof.
  intros H. unfold pad_row. rewrite length_app, length_map, repeat_length. lia.
Qed.

(** X3: every frame the tabulator returns has the six columns, and each
    of its records is text, number, number, text, text, text, where a
    number may be NaN and a text may be [None]. *)
Theorem frame_shape (raw : str) (df : DataFrame) :
  tabulate raw = Done df ->
  df_columns df = COLUMNS /\ Forall record_shape (df_rows df).
Proof.
  rewrite tabulate_closed. destruct (fits (rows raw)) eqn:Hfit; [|discriminate].
  intros [= <-]. split; [reflexivity|].
  unfold frame_of_rows. cbn [df_rows]. apply Forall_map.
  unfold fits in Hfit. destruct (rows raw) as [|r rs]; [constructor|].
  apply Nat.eqb_eq in Hfit.
  assert (Hle : Forall (fun k => k <= 6) (map (@List.length str) (r :: rs))).
  { apply list_max_le. unfold widest in Hfit. lia. }
  rewrite Forall_map in Hle. eapply Forall_impl; [|exact Hle].
  intros row Hrow. apply coerce_row_shape.
  - now apply pad_row_length.
  - apply pad_row_text.
Qed.

(** X4: a frame has three records fewer than the stripped reply has
    lines, and none when the reply has fewer than three lines. *)
Theorem record_count (raw : str) (df : DataFrame) :
  tabulate raw = Done df ->
  List.length (df_rows df) = List.length (split NL (strip raw)) - 3.
Proof.
  rewrite tabulate_closed. destruct (fits (rows raw)); [|discriminate].
  intros [= <-]. unfold frame_of_rows. cbn [df_rows].
  rewrite length_map. unfold rows. rewrite length_map. unfold table_data.
  rewrite (@py_slice_to_last _ 2), length_removelast, length_skipn. lia.
Qed.

Lemma lstrip_blank (s : str) : forallb is_space s = true -> lstrip s = [].
Proof.
  induction s as [|c s IH]; simpl; [reflexivity|].
  intros H. apply andb_prop in H as [Hc Hs]. rewrite Hc. now apply IH.
Qed.

Lemma lstrip_nil_blank (s : str) : lstrip s = [] -> forallb is_space s = true.
Proof.
  induction s as [|c s IH]; simpl; [reflexivity|].
  destruct (is_space c); [exact IH|discriminate].
Qed.

Lemma lstrip_app (s t : str) : lstrip s <> [] -> lstrip (s ++ t) = lstrip s ++ t.
Proof.
  induction s as [|c s IH]; simpl; [congruence|].
  destruct (is_space c); [exact IH|reflexivity].
Qed.

Lemma rstrip_app_spaces (s ws : str) :
  forallb is_space ws = true -> rstrip (s ++ ws) = rstrip s.
Proof.
  intros H. unfold rstrip. rewrite rev_app_distr.
  now rewrite lstrip_spaces by now rewrite forallb_rev.
Qed.

(** White space around a text does not change what [strip] gives. *)
Lemma strip_surrounded (ws1 ws2 s : str) :
  forallb is_space ws1 = true -> forallb is_space ws2 = true ->
  strip (ws1 ++ s ++ ws2) = strip s.
Proof.
  intros H1 H2. unfold strip. rewrite lstrip_spaces by assumption.
  destruct (lstrip s) as [|c r] eqn:E.
  - apply lstrip_nil_blank in E.
    rewrite lstrip_blank by (rewrite forallb_app, E, H2; reflexivity).
    reflexivity.
  - rewrite lstrip_app by (rewrite E; discriminate).
    rewrite E. now apply rstrip_app_spaces.
Qed.

Lemma row_fields_nil (line : str) :
  count_char BAR line < 2 -> row_fields line = [].
Proof.
  intros H. apply length_zero_iff_nil.
  rewrite row_fields_unstripped, length_removelast, length_skipn, split_length.
  lia.
Qed.

Section TabulatorFacts.

Variable num_repr : list value -> Q -> str.

(** The page of a tabulation, by its frame. *)
Lemma tabulation_page (raw : str) :
  run (tabulation num_repr raw) =
  match tabulate raw with
  | Done df => success_events num_repr df
  | Raised e => [EvError (PROCESSING_ERROR ++ exn_str e)]
  end.
Proof.
  unfold run. destruct (tabulate raw) as [df|e] eqn:E.
  - now rewrite (@tabulation_done num_repr raw df [] E).
  - now rewrite (@tabulation_raised num_repr raw e [] E).
Qed.

(** X5: the tabulation shows either both charts and the download, or the
    processing error and nothing else.  The error comes exactly when there
    is a row and the widest row does not have six fields, and its text
    names that width. *)
Theorem tabulation_outcome (raw : str) :
  run (tabulation num_repr raw) =
  if fits (rows raw) then success_events num_repr (frame_of_rows (rows raw))
  else [EvError (PROCESSING_ERROR ++ lit "6 columns passed, passed data had "
                 ++ nat_str (widest (rows raw)) ++ lit " columns")].
Proof.
  rewrite tabulation_page, tabulate_closed.
  now destruct (fits (rows raw)).
Qed.

(** X6: white space before and after the reply, line breaks included,
    changes nothing: the rows, the frame and the page are those of the
    reply without it. *)
Theorem surrounding_space_is_ignored (ws1 ws2 raw : str) :
  forallb is_space ws1 = true -> forallb is_space ws2 = true ->
  rows (ws1 ++ raw ++ ws2) = rows raw
  /\ tabulate (ws1 ++ raw ++ ws2) = tabulate raw
  /\ run (tabulation num_repr (ws1 ++ raw ++ ws2))
     = run (tabulation num_repr raw).
Proof.
  intros H1 H2.
  assert (Hrows : rows (ws1 ++ raw ++ ws2) = rows raw).
  { unfold rows, table_data. now rewrite strip_surrounded. }
  assert (Htab : tabulate (ws1 ++ raw ++ ws2) = tabulate raw).
  { now rewrite !tabulate_closed, Hrows. }
  split; [exact Hrows|]. split; [exact Htab|].
  now rewrite !tabulation_page, Htab.
Qed.

(** X7: a reply that keeps at least one line and whose kept lines all
    have fewer than two bars (plain prose of four lines or more) ends in
    the processing error: the rows are empty lists, and a frame of width
    zero does not take six columns. *)
Theorem prose_reply_is_an_error (raw : str) :
  table_data raw <> [] ->
  Forall (fun line => count_char BAR line < 2) (table_data raw) ->
  run (tabulation num_repr raw)
  = [EvError (PROCESSING_ERROR
              ++ lit "6 columns passed, passed data had 0 columns")].
Proof.
  intros Hne Hbars.
  assert (Hw : widest (rows raw) = 0).
  { unfold widest, rows.
    assert (H : list_max (map (@List.length str) (map row_fields (table_data raw))) <= 0).
    { apply list_max_le. rewrite !Forall_map.
      eapply Forall_impl; [|exact Hbars].
      intros line Hline. now rewrite row_fields_nil. }
    lia. }
  rewrite tabulation_outcome. unfold fits. rewrite Hw.
  unfold rows. destruct (table_data raw); [congruence|reflexivity].
Qed.

End TabulatorFacts.

(** X8: in a reply that is tabulated, a kept line with fewer than two bars
    (a blank line inside the table, a line of prose after it) becomes a
    record of six missing values. *)
Theorem barless_line_is_an_empty_record (raw line : str) (df : DataFrame) :
  tabulate raw = Done df ->
  In line (table_data raw) -> count_char BAR line < 2 ->
  In [VNone; VNaN; VNaN; VNone; VNone; VNone] (df_rows df).
Proof.
  rewrite tabulate_closed. destruct (fits (rows raw)); [|discriminate].
  intros [= <-] Hin Hbars. unfold frame_of_rows. cbn [df_rows].
  apply in_map_iff. exists []. split; [reflexivity|].
  unfold rows. apply in_map_iff. exists line.
  split; [now apply row_fields_nil|assumption].
Qed.

(* ================================================================= *)
(** ** Further properties of the coercion *)

Lemma span_digits_spec (s : str) :
  exists p, s = p ++ snd (span_digits s)
            /\ forallb is_ascii_digit p = true
            /\ fst (span_digits s) = map (fun c => (c - 48)%N) p.
Proof.
  induction s as [|c s (p & E & Hp & Hds)]; [now exists []|].
  simpl. destruct (is_ascii_digit c) eqn:Hc.
  - destruct (span_digits s) as [ds r]. simpl in *.
    exists (c :: p). simpl. rewrite Hc, Hp, Hds. now rewrite E at 1.
  - now exists [].
Qed.

(** What the parser accepts: ASCII digits, with at most one dot among
    them; and what it returns is not negative. *)
Lemma parse_decimal_shape (s : str) (q : Q) :
  parse_decimal s = Some q ->
  (exists p1 p2, forallb is_ascii_digit p1 = true
                 /\ forallb is_ascii_digit p2 = true
                 /\ (s = p1 \/ s = p1 ++ DOT :: p2))
  /\ (0 <= q)%Q.
Proof.
  unfold parse_decimal.
  destruct (span_digits_spec s) as (p1 & E1 & Hp1 & _).
  destruct (span_digits s) as [ip r1]. simpl in E1.
  assert (Hpos : forall n p q', Some (Qred (Qmake (Z.of_N n) p)) = Some q' ->
                                (0 <= q')%Q).
  { intros n p q' [= <-].
    change (Qred (Qmake 0 1) <= Qred (Qmake (Z.of_N n) p))%Q.
    apply Qred_le. unfold Qle. simpl. lia. }
  destruct r1 as [|c r].
  - destruct (_ =? _)%nat; [discriminate|]. intros H. split; [|now apply Hpos in H].
    exists p1, []. rewrite app_nil_r in E1. auto.
  - destruct (N.eqb_spec c DOT) as [->|Hne]; [|discriminate].
    destruct (span_digits_spec r) as (p2 & E2 & Hp2 & _).
    destruct (span_digits r) as [fp r2]. simpl in E2.
    destruct r2; [|discriminate].
    destruct (_ =? _)%nat; [discriminate|]. intros H. split; [|now apply Hpos in H].
    exists p1, p2. rewrite app_nil_r in E2. subst r. auto.
Qed.

Lemma coerce_cell_str (s : str) :
  coerce_cell (VStr s) =
  match parse_decimal (filter numeric_char s) with
  | Some q => VNum q
  | None => VNaN
  end.
Proof.
  unfold coerce_cell. simpl. unfold strip_non_numeric.
  rewrite re_sub_runs_empty.
  rewrite (filter_ext (fun c => negb (not_digit_or_dot c)) numeric_char)
    by (intros c; unfold not_digit_or_dot, numeric_char; apply negb_involutive).
  reflexivity.
Qed.

Lemma ascii_digit_not_dot (p : str) :
  forallb is_ascii_digit p = true -> count_char DOT p = 0.
Proof.
  unfold count_char. induction p as [|c p IH]; [reflexivity|].
  cbn [filter forallb]. intros H. apply andb_prop in H as [Hc Hp].
  destruct (N.eqb_spec DOT c) as [<-|_]; [discriminate Hc|]. now apply IH.
Qed.

Lemma count_char_app (c : char) (a b : str) :
  count_char c (a ++ b) = count_char c a + count_char c b.
Proof. unfold count_char. now rewrite filter_app, length_app. Qed.

Lemma count_dot_kept (s : str) :
  count_char DOT (filter numeric_char s) = count_char DOT s.
Proof.
  unfold count_char. induction s as [|c s IH]; [reflexivity|].
  cbn [filter]. unfold numeric_char at 1.
  destruct (N.eqb_spec DOT c) as [<-|Hne].
  - rewrite N.eqb_refl, orb_true_r. cbn [filter]. rewrite N.eqb_refl.
    cbn [List.length]. now rewrite IH.
  - destruct (is_decimal c || (c =? DOT)%N); [|exact IH].
    cbn [filter]. destruct (N.eqb_spec DOT c); [congruence|exact IH].
Qed.


(** X9: the coercion never gives a negative number: a minus sign is one
    of the characters it removes. *)
Theorem coercion_is_never_negative (v : value) (q : Q) :
  coerce_cell v = VNum q -> (0 <= q)%Q.
Proof.
  destruct v as [s| |q'|]; try discriminate.
  rewrite coerce_cell_str.
  destruct (parse_decimal (filter numeric_char s)) as [q0|] eqn:E; [|discriminate].
  intros [= <-]. now apply parse_decimal_shape in E.
Qed.

(** X10: a cell with two dots or more is a missing value, whatever else it
    holds: the dots all survive the replacement and the parser takes one. *)
Theorem two_dots_give_nan (s : str) :
  2 <= count_char DOT s -> coerce_cell (VStr s) = VNaN.
Proof.
  intros Hdots. rewrite coerce_cell_str.
  destruct (parse_decimal (filter numeric_char s)) as [q|] eqn:E; [|reflexivity].
  apply parse_decimal_shape in E as [(p1 & p2 & H1 & H2 & Hs) _].
  rewrite <- count_dot_kept in Hdots.
  destruct Hs as [Hs|Hs]; rewrite Hs in Hdots.
  - rewrite ascii_digit_not_dot in Hdots by assumption. exfalso. lia.
  - change (DOT :: p2) with ([DOT] ++ p2) in Hdots.
    rewrite !count_char_app in Hdots.
    rewrite (@ascii_digit_not_dot p1 H1), (@ascii_digit_not_dot p2 H2) in Hdots.
    change (count_char DOT [DOT]) with 1 in Hdots. exfalso. lia.
Qed.

(** X11: a decimal digit that is not an ASCII digit (a Devanagari or
    Arabic-Indic digit, a full-width digit) makes the cell a missing
    value: the pattern [\d] keeps it and the parser does not read it. *)
Theorem foreign_digit_gives_nan (s : str) (c : char) :
  In c s -> is_decimal c = true -> is_ascii_digit c = false ->
  coerce_cell (VStr s) = VNaN.
Proof.
  intros Hin Hdec Hascii. rewrite coerce_cell_str.
  destruct (parse_decimal (filter numeric_char s)) as [q|] eqn:E; [|reflexivity].
  apply parse_decimal_shape in E as [(p1 & p2 & H1 & H2 & Hs) _].
  assert (Hkept : In c (filter numeric_char s)).
  { apply filter_In. split; [assumption|]. unfold numeric_char. now rewrite Hdec. }
  assert (Hdot : c <> DOT) by (intros ->; discriminate).
  rewrite forallb_forall in H1, H2.
  destruct Hs as [Hs|Hs]; rewrite Hs in Hkept.
  - rewrite (H1 c Hkept) in Hascii. discriminate.
  - apply in_app_or in Hkept as [Hk|[Hk|Hk]].
    + rewrite (H1 c Hk) in Hascii. discriminate.
    + congruence.
    + rewrite (H2 c Hk) in Hascii. discriminate.
Qed.

(** X12: text without digit or dot inside a cell is dropped without a
    trace, so the digits on its two sides are read as one number: a
    thousands comma disappears, and the two ends of a range are glued. *)
Theorem separator_is_dropped (a t b : str) :
  forallb (fun c => negb (numeric_char c)) t = true ->
  coerce_cell (VStr (a ++ t ++ b)) = coerce_cell (VStr (a ++ b)).
Proof.
  intros Ht. rewrite !coerce_cell_str, !filter_app.
  assert (E : filter numeric_char t = []).
  { induction t as [|c t IH]; [reflexivity|]. simpl in *.
    apply andb_prop in Ht as [Hc Ht]. apply negb_true_iff in Hc.
    rewrite Hc. now apply IH. }
  now rewrite E.
Qed.




(* ================================================================= *)
(** ** Further properties of the submit handler and of the script *)

Lemma chain_calls_app (a b : trace) :
  chain_calls (a ++ b) = chain_calls a ++ chain_calls b.
Proof. apply flat_map_app. Qed.

Lemma page_chain_calls_main (t : trace) :
  page_chain_calls (map WMain t) = chain_calls t.
Proof.
  induction t as [|ev t IH]; [reflexivity|].
  simpl. rewrite IH. now destruct ev.
Qed.

Section HandlerFacts.

Variable num_repr : list value -> Q -> str.
Variable travel_chain : str -> str -> outcome response.

Lemma chain_calls_tabulation (raw : str) :
  chain_calls (run (tabulation num_repr raw)) = [].
Proof.
  rewrite tabulation_page. now destruct (tabulate raw).
Qed.

(** The handler, event by event. *)
Lemma on_submit_closed (source destination : str) (t : trace) :
  on_submit num_repr travel_chain source destination t =
  if truthy source && truthy destination then
    (t ++ [EvWrite (lit "Generating travel options from **" ++ source
                    ++ lit "** to **" ++ destination ++ lit "**...");
           EvChainRun source destination;
           EvWrite (lit "### Travel Recommendations:");
           EvWrite (reply_text (travel_chain source destination))]
       ++ run (tabulation num_repr (reply_text (travel_chain source destination))),
     Done tt)
  else (t ++ [EvError VALIDATION_ERROR], Done tt).
Proof.
  unfold on_submit. destruct (truthy source && truthy destination); [|reflexivity].
  rewrite bind_emit.
  erewrite bind_done by apply get_travel_recommendations_returns.
  rewrite !bind_emit, tabulation_appends. f_equal.
  rewrite <- !app_assoc. reflexivity.
Qed.

(** X14: no exception leaves the submit handler, whatever the chain
    answers or raises and whatever the reply looks like; the handler only
    adds to the page. *)
Theorem handler_never_raises (source destination : str) (t : trace) :
  exists added,
    on_submit num_repr travel_chain source destination t = (t ++ added, Done tt).
Proof.
  rewrite on_submit_closed.
  destruct (truthy source && truthy destination); eexists; reflexivity.
Qed.

(** X15: a submit calls the chain once, with the two fields exactly as
    typed (not trimmed), when both are non-empty, and not at all
    otherwise; there is no second call, whatever the first one did. *)
Theorem one_chain_call_per_submit (source destination : str) :
  chain_calls (run (on_submit num_repr travel_chain source destination))
  = if truthy source && truthy destination then [(source, destination)]
    else [].
Proof.
  unfold run. rewrite on_submit_closed.
  destruct (truthy source && truthy destination); [|reflexivity].
  cbn [fst app]. cbn [chain_calls flat_map app].
  fold (chain_calls
          (run (tabulation num_repr (reply_text (travel_chain source destination))))).
  now rewrite chain_calls_tabulation.
Qed.

(** X16: when the chain answers with a string, the page shows the
    progress line, the heading and the reply as received, and then either
    both charts and the download of the reply's frame or the processing
    error, by the width of the reply's rows. *)
Theorem answered_submit_page (source destination text : str) :
  truthy source = true -> truthy destination = true ->
  travel_chain source destination = Done (RespStr text) ->
  run (on_submit num_repr travel_chain source destination)
  = [EvWrite (lit "Generating travel options from **" ++ source
              ++ lit "** to **" ++ destination ++ lit "**...");
     EvChainRun source destination;
     EvWrite (lit "### Travel Recommendations:");
     EvWrite text]
    ++ (if fits (rows text)
        then success_events num_repr (frame_of_rows (rows text))
        else [EvError (PROCESSING_ERROR ++ exn_str (width_error (widest (rows text))))]).
Proof.
  intros Hs Hd Hreply. unfold run. rewrite on_submit_closed, Hs, Hd, Hreply.
  cbn [andb reply_text fst app].
  rewrite tabulation_page, tabulate_closed.
  now destruct (fits (rows text)).
Qed.

End HandlerFacts.

Section ScriptFacts.

Variable num_repr : list value -> Q -> str.
Variable build_chain : str -> outcome (str -> str -> outcome response).

(** X17: a run of the script calls the chain only when the key is there
    and not empty, the chain could be built, the button was pressed and
    both fields are non-empty; then it calls it once, with the two fields. *)
Theorem script_chain_calls (secret : outcome str) (source destination : str)
  (pressed : bool) :
  page_chain_calls
    (fst (script num_repr build_chain secret source destination pressed))
  = match secret with
    | Done key =>
        match build_chain key with
        | Done _ =>
            if truthy key && pressed && truthy source && truthy destination
            then [(source, destination)]
            else []
        | Raised _ => []
        end
    | Raised _ => []
    end.
Proof.
  unfold script. destruct secret as [key|e]; [|reflexivity].
  destruct (truthy key); cbn [negb andb].
  - destruct (build_chain key) as [chain|e]; [|reflexivity].
    assert (Hpage : forall t,
               page_chain_calls (PAGE_HEAD ++ map WMain t ++ SIDEBAR)
               = chain_calls t).
    { intros t. unfold page_chain_calls. rewrite !flat_map_app.
      fold (page_chain_calls (map WMain t)). rewrite page_chain_calls_main.
      cbn [PAGE_HEAD SIDEBAR flat_map app]. apply app_nil_r. }
    destruct pressed; cbn [andb].
    + rewrite on_submit_closed.
      destruct (truthy source && truthy destination); cbn [fst snd].
      * etransitivity; [apply Hpage|].
        rewrite !chain_calls_app, chain_calls_tabulation. reflexivity.
      * etransitivity; [apply Hpage|]. reflexivity.
    + unfold ret. etransitivity; [apply Hpage|]. reflexivity.
  - now destruct (build_chain key).
Qed.

(** X18: with a key that is not empty and a chain that could be built,
    every run reaches the last line: the page is the title, the tagline,
    the two inputs and the button, then what the handler emitted if the
    button was pressed, then the whole sidebar, also after a failed call
    or a failed tabulation. *)
Theorem script_reaches_sidebar (key source destination : str)
  (chain : str -> str -> outcome response) (pressed : bool) :
  truthy key = true -> build_chain key = Done chain ->
  script num_repr build_chain (Done key) source destination pressed
  = (PAGE_HEAD
     ++ map WMain (if pressed
                   then run (on_submit num_repr chain source destination)
                   else [])
     ++ SIDEBAR,
     Finished).
Proof.
  intros Hkey Hbuild. unfold script, run. rewrite Hkey, Hbuild. cbn [negb].
  destruct pressed; [|reflexivity].
  rewrite on_submit_closed.
  now destruct (truthy source && truthy destination).
Qed.

End ScriptFacts.

(* ================================================================= *)
(** ** The further properties on concrete inputs *)


Lemma frame_shape_witness :
  df_columns (mkDataFrame COLUMNS (map record_of sample_cells)) = COLUMNS
  /\ Forall record_shape (df_rows (mkDataFrame COLUMNS (map record_of sample_cells))).
Proof.
  apply (@frame_shape sample_reply (mkDataFrame COLUMNS (map record_of sample_cells))).
  vm_compute. reflexivity.
Defined.

(** The sample reply has eight lines and five records. *)
Lemma record_count_witness :
  List.length (df_rows (mkDataFrame COLUMNS (map record_of sample_cells)))
  = List.length (split NL (strip sample_reply)) - 3.
Proof.
  apply (@record_count sample_reply (mkDataFrame COLUMNS (map record_of sample_cells))).
  vm_compute. reflexivity.
Defined.

Lemma surrounding_space_is_ignored_witness :
  rows ([NL; 32%N] ++ sample_reply ++ [32%N; NL; NL]) = rows sample_reply
  /\ tabulate ([NL; 32%N] ++ sample_reply ++ [32%N; NL; NL]) = tabulate sample_reply
  /\ run (tabulation fraction_repr ([NL; 32%N] ++ sample_reply ++ [32%N; NL; NL]))
     = run (tabulation fraction_repr sample_reply).
Proof.
  apply (@surrounding_space_is_ignored fraction_repr [NL; 32%N] [32%N; NL; NL]
           sample_reply); reflexivity.
Defined.

Lemma prose_reply_is_an_error_witness :
  run (tabulation fraction_repr prose_reply)
  = [EvError (PROCESSING_ERROR
              ++ lit "6 columns passed, passed data had 0 columns")].
Proof.
  apply (@prose_reply_is_an_error fraction_repr prose_reply).
  - vm_compute. discriminate.
  - vm_compute. repeat constructor.
Defined.

(** The blank line of the gapped table is a record of missing values. *)
Lemma barless_line_is_an_empty_record_witness :
  In [VNone; VNaN; VNaN; VNone; VNone; VNone]
     (df_rows (frame_of_rows (rows gapped_reply))).
Proof.
  apply (@barless_line_is_an_empty_record gapped_reply []
           (frame_of_rows (rows gapped_reply))).
  - vm_compute. reflexivity.
  - vm_compute. right. left. reflexivity.
  - vm_compute. repeat constructor.
Defined.

(** A cell with a minus sign: the number comes out positive. *)
Lemma coercion_is_never_negative_witness : (0 <= Qmake 5 1)%Q.
Proof.
  apply (@coercion_is_never_negative (VStr (lit "-5")) (Qmake 5 1)).
  vm_compute. reflexivity.
Defined.

(** An abbreviation with its dot before a decimal price. *)
Lemma two_dots_give_nan_witness : coerce_cell (VStr (lit "Rs. 2.5")) = VNaN.
Proof.
  apply (@two_dots_give_nan (lit "Rs. 2.5")). vm_compute. repeat constructor.
Defined.

(** 1200 in Devanagari digits. *)
Lemma foreign_digit_gives_nan_witness :
  coerce_cell (VStr [2407%N; 2408%N; 2406%N; 2406%N]) = VNaN.
Proof.
  apply (@foreign_digit_gives_nan [2407%N; 2408%N; 2406%N; 2406%N] 2407%N).
  - left. reflexivity.
  - vm_compute. reflexivity.
  - vm_compute. reflexivity.
Defined.

(** The two ends of a price range are glued into one number. *)
Lemma separator_is_dropped_witness :
  coerce_cell (VStr (lit "1000" ++ lit " - " ++ lit "1500"))
  = coerce_cell (VStr (lit "1000" ++ lit "1500")).
Proof.
  apply (@separator_is_dropped (lit "1000") (lit " - ") (lit "1500")).
  vm_compute. reflexivity.
Defined.


Lemma answered_submit_page_witness :
  run (on_submit fraction_repr sample_chain (lit "Mumbai") (lit "Pune"))
  = [EvWrite (lit "Generating travel options from **" ++ lit "Mumbai"
              ++ lit "** to **" ++ lit "Pune" ++ lit "**...");
     EvChainRun (lit "Mumbai") (lit "Pune");
     EvWrite (lit "### Travel Recommendations:");
     EvWrite sample_reply]
    ++ (if fits (rows sample_reply)
        then success_events fraction_repr (frame_of_rows (rows sample_reply))
        else [EvError (PROCESSING_ERROR
                       ++ exn_str (width_error (widest (rows sample_reply))))]).
Proof.
  apply (@answered_submit_page fraction_repr sample_chain (lit "Mumbai")
           (lit "Pune") sample_reply); reflexivity.
Defined.

Lemma script_reaches_sidebar_witness :
  script fraction_repr sample_build (Done (lit "secret-key")) (lit "Mumbai")
    (lit "Pune") true
  = (PAGE_HEAD
     ++ map WMain (run (on_submit fraction_repr sample_chain (lit "Mumbai")
                          (lit "Pune")))
     ++ SIDEBAR,
     Finished).
Proof.
  apply (@script_reaches_sidebar fraction_repr sample_build (lit "secret-key")
           (lit "Mumbai") (lit "Pune") sample_chain true); reflexivity.
Defined.
